(** * request_copilot_review.py: a shallow embedding and its properties

    The script asks a local helper process (the GitHub MCP server) to
    request a Copilot review of a pull request.  It has four functions:
    [get_pull_request_info] (the context resolver), [setup_mcp_server]
    (the helper locator), [request_copilot_review] (the protocol client)
    and [main] (the entry point).

    The embedding is a state-and-exception monad over a [world] that holds
    what the script can observe (environment variables, files, the clock,
    the helper's scripted behaviour) and a trace of what it did. *)

From Stdlib Require Import ZArith NArith Ascii String List Bool Lia.
From Stdlib Require Import Floats.SpecFloat.
From stdpp Require Import base option gmap strings list.
From Equations Require Import Equations.
From Equations.Prop Require Import Logic.

Set Warnings "-register-all".
Local Open Scope string_scope.
Local Open Scope list_scope.
Local Open Scope Z_scope.

(** ** Python values *)

(** The values that [json.load]/[json.loads] produce, which are also all the
    values the script's variables hold ([None] and [str] from the
    environment, decoded JSON from the event file and from the helper).
    A [float] is an IEEE-754 value, kept as its sign, mantissa and
    exponent.  A [dict] decoded from JSON has string keys. *)
Inductive pyval :=
| PNone
| PBool (b : bool)
| PInt (z : Z)
| PFloat (f : spec_float)
| PStr (s : string)
| PList (l : list pyval)
| PDict (m : gmap string pyval).

(** The exceptions that the modelled operations raise.  [SystemExit] is the
    one that is not a subclass of [Exception]. *)
Inductive exn :=
| ValueError
| TypeError
| KeyError (key : string)
| AttributeError
| OverflowError
| JSONDecodeError
| OSError
| BrokenPipeError
| TimeoutExpired
| SystemExit (code : Z).

Definition is_Exception (e : exn) : bool :=
  match e with SystemExit _ => false | _ => true end.

Definition is_JSONDecodeError (e : exn) : bool :=
  match e with JSONDecodeError => true | _ => false end.

(** ** Built-ins used by the script *)

Module Py.

(** [bool(s)] for a string. *)
Definition truthy_str (s : string) : bool :=
  match s with EmptyString => false | String _ _ => true end.

(** [bool(v)]: what [if v:] and [not v] test. *)
Definition truthy (v : pyval) : bool :=
  match v with
  | PNone => false
  | PBool b => b
  | PInt z => negb (z =? 0)
  | PFloat (S754_zero _) => false
  | PFloat _ => true
  | PStr s => truthy_str s
  | PList l => match l with [] => false | _ => true end
  | PDict m => negb (bool_decide (m = ∅))
  end.

(** [os.environ.get(name)] gives [None] or a [str]. *)
Definition of_env (o : option string) : pyval :=
  match o with None => PNone | Some s => PStr s end.

(** A string holds the UTF-8 encoding of a Python [str]: this is how the
    environment, the command line and the files carry it.  [int] works on
    code points, so the bytes are decoded first.  A byte that is not part
    of the encoding of a code point stands for the surrogate escape
    (U+DC80 to U+DCFF) by which Python decodes the environment. *)
Definition byte (c : ascii) : Z := Z.of_N (N_of_ascii c).

Definition continuation (c : ascii) : bool :=
  (128 <=? byte c) && (byte c <=? 191).

(** The code point encoded at the front of a string, and what follows
    it.  Encodings longer than needed, surrogates and code points above
    U+10FFFF are not UTF-8. *)
Definition decode_one (s : string) : option (Z * string) :=
  match s with
  | EmptyString => None
  | String c0 s1 =>
      let b0 := byte c0 in
      if b0 <? 128 then Some (b0, s1)
      else if (194 <=? b0) && (b0 <=? 223) then
        match s1 with
        | String c1 s2 =>
            if continuation c1
            then Some ((b0 - 192) * 64 + (byte c1 - 128), s2)
            else None
        | _ => None
        end
      else if (224 <=? b0) && (b0 <=? 239) then
        match s1 with
        | String c1 (String c2 s3) =>
            let ch := (b0 - 224) * 4096 + (byte c1 - 128) * 64
                      + (byte c2 - 128) in
            if continuation c1 && continuation c2 && (2048 <=? ch)
               && negb ((55296 <=? ch) && (ch <=? 57343))
            then Some (ch, s3)
            else None
        | _ => None
        end
      else if (240 <=? b0) && (b0 <=? 244) then
        match s1 with
        | String c1 (String c2 (String c3 s4)) =>
            let ch := (b0 - 240) * 262144 + (byte c1 - 128) * 4096
                      + (byte c2 - 128) * 64 + (byte c3 - 128) in
            if continuation c1 && continuation c2 && continuation c3
               && (65536 <=? ch) && (ch <=? 1114111)
            then Some (ch, s4)
            else None
        | _ => None
        end
      else None
  end.

(** Each step takes at least one byte, so the length of the string is
    fuel enough. *)
Fixpoint decode (fuel : nat) (s : string) : list Z :=
  match fuel, s with
  | S fuel', String c0 s1 =>
      match decode_one s with
      | Some (ch, rest) => ch :: decode fuel' rest
      | None => (56320 + byte c0) :: decode fuel' s1
      end
  | _, _ => []
  end.

Definition code_points (s : string) : list Z := decode (String.length s) s.

(** [Py_UNICODE_ISSPACE]: the code points for which [str.isspace]
    holds. *)
Definition unicode_isspace (ch : Z) : bool :=
  existsb (Z.eqb ch)
    [9; 10; 11; 12; 13; 28; 29; 30; 31; 32; 133; 160; 5760; 8232; 8233;
     8239; 8287; 12288]
  || ((8192 <=? ch) && (ch <=? 8202)).

(** The zeros of the decimal digits (category Nd) of Unicode 14.0, the
    version of CPython 3.11; each is followed by its digits 1 to 9. *)
Definition decimal_zeros : list Z :=
  [48; 1632; 1776; 1984; 2406; 2534; 2662; 2790; 2918; 3046; 3174; 3302;
   3430; 3558; 3664; 3792; 3872; 4160; 4240; 6112; 6160; 6470; 6608; 6784;
   6800; 6992; 7088; 7232; 7248; 42528; 43216; 43264; 43472; 43504; 43600;
   44016; 65296; 66720; 68912; 69734; 69872; 69942; 70096; 70384; 70736;
   70864; 71248; 71360; 71472; 71904; 72016; 72784; 73040; 73120; 92768;
   92864; 93008; 120782; 120792; 120802; 120812; 120822; 123200; 123632;
   125264; 130032].

(** [Py_UNICODE_TODECIMAL]. *)
Definition unicode_todecimal (ch : Z) : option Z :=
  match find (fun zero => (zero <=? ch) && (ch <? zero + 10)) decimal_zeros with
  | Some zero => Some (ch - zero)
  | None => None
  end.

(** [_PyUnicode_TransformDecimalAndSpaceToASCII], the first step of
    [int(s)]: a string that is all ASCII is left as it is; in another one
    the spaces and the decimal digits outside ASCII are replaced by a
    blank and by the ASCII digit, and the result is cut after a question
    mark at the first code point that is neither. *)
Fixpoint transform_non_ascii (l : list Z) : list Z :=
  match l with
  | [] => []
  | ch :: l' =>
      if ch <? 127 then ch :: transform_non_ascii l'
      else if unicode_isspace ch then 32 :: transform_non_ascii l'
      else match unicode_todecimal ch with
           | Some d => (48 + d) :: transform_non_ascii l'
           | None => [63]
           end
  end.

Definition transform_decimal_and_space_to_ascii (l : list Z) : list Z :=
  if forallb (fun ch => ch <? 128) l then l else transform_non_ascii l.

(** [Py_ISSPACE]: the whitespace that [PyLong_FromString] skips around a
    number. *)
Definition is_space (b : Z) : bool :=
  (b =? 32) || ((9 <=? b) && (b <=? 13)).

Definition digit_of (b : Z) : option Z :=
  if (48 <=? b) && (b <=? 57) then Some (b - 48) else None.

Fixpoint skip_spaces (l : list Z) : list Z :=
  match l with
  | b :: l' => if is_space b then skip_spaces l' else l
  | [] => []
  end.

(** The scan of the digits: digits with single underscores between them,
    up to the first character that is neither.  [acc] is the value read
    so far, [count] the number of digits, [after_underscore] tells whether
    the previous character was an underscore, which must be followed by a
    digit.  The result is the value, the number of digits and what is
    left. *)
Fixpoint digits (l : list Z) (acc : Z) (count : nat) (after_underscore : bool)
  : option (Z * nat * list Z) :=
  match l with
  | [] => if after_underscore then None else Some (acc, count, [])
  | b :: l' =>
      match digit_of b with
      | Some d => digits l' (10 * acc + d) (S count) false
      | None =>
          if b =? 95 then
            if after_underscore then None else digits l' acc count true
          else if after_underscore then None else Some (acc, count, l)
      end
  end.

(** [sys.int_info.default_max_str_digits]. *)
Definition max_str_digits : nat := 4300.

(** [PyLong_FromString] in base 10: whitespace, an optional sign, the
    digits (at least one, at most [max_str_digits], not led by an
    underscore), whitespace, and nothing more. *)
Definition long_from_string (l : list Z) : option Z :=
  let l1 := skip_spaces l in
  let '(neg, l2) :=
    match l1 with
    | 45 :: r => (true, r)
    | 43 :: r => (false, r)
    | _ => (false, l1)
    end in
  match l2 with
  | 95 :: _ => None
  | _ =>
      match digits l2 0 0%nat false with
      | Some (n, count, rest) =>
          if (count =? 0)%nat then None
          else if (max_str_digits <? count)%nat then None
          else match skip_spaces rest with
               | [] => Some (if neg then - n else n)
               | _ => None
               end
      | None => None
      end
  end.

(** [int(s)] for a string.  [None] stands for [ValueError]. *)
Definition int_of_str (s : string) : option Z :=
  long_from_string (transform_decimal_and_space_to_ascii (code_points s)).

(** [int(f)] for a float: truncation towards zero. *)
Definition int_of_float (f : spec_float) : exn + Z :=
  match f with
  | S754_zero _ => inr 0
  | S754_infinity _ => inl OverflowError
  | S754_nan => inl ValueError
  | S754_finite neg m e =>
      let mag := if 0 <=? e then Z.shiftl (Z.pos m) e
                 else Z.shiftr (Z.pos m) (- e) in
      inr (if neg then - mag else mag)
  end.

(** [int(v)]. *)
Definition int (v : pyval) : exn + Z :=
  match v with
  | PNone => inl TypeError
  | PBool b => inr (if b then 1 else 0)
  | PInt z => inr z
  | PFloat f => int_of_float f
  | PStr s => match int_of_str s with Some z => inr z | None => inl ValueError end
  | PList _ => inl TypeError
  | PDict _ => inl TypeError
  end.

Definition is_str (k : string) (v : pyval) : bool :=
  match v with PStr s => String.eqb s k | _ => false end.

(** [s.startswith(k)]. *)
Fixpoint startswith (s k : string) {struct k} : bool :=
  match k with
  | EmptyString => true
  | String a k' =>
      match s with
      | String b s' => Ascii.eqb a b && startswith s' k'
      | EmptyString => false
      end
  end.

(** [k in s] for strings: [k] occurs in [s]. *)
Fixpoint substring_of (k s : string) : bool :=
  startswith s k ||
  match s with
  | EmptyString => false
  | String _ s' => substring_of k s'
  end.

(** [k in v] for a string [k]: key membership for a dict, element
    membership for a list, substring for a string; the other values are
    not containers. *)
Definition contains (k : string) (v : pyval) : exn + bool :=
  match v with
  | PDict m => inr (bool_decide (is_Some (m !! k)))
  | PList l => inr (existsb (is_str k) l)
  | PStr s => inr (substring_of k s)
  | _ => inl TypeError
  end.

(** [v[k]] for a string [k]. *)
Definition getitem (v : pyval) (k : string) : exn + pyval :=
  match v with
  | PDict m => match m !! k with Some x => inr x | None => inl (KeyError k) end
  | _ => inl TypeError
  end.

(** [v.get(k, default)]: only a dict has the method. *)
Definition get (v : pyval) (k : string) (default : pyval) : exn + pyval :=
  match v with
  | PDict m => inr (match m !! k with Some x => x | None => default end)
  | _ => inl AttributeError
  end.

(** [s.split(sep)] for a one-character separator. *)
Fixpoint split (sep : ascii) (s : string) : list string :=
  match s with
  | EmptyString => [EmptyString]
  | String c s' =>
      if Ascii.eqb c sep then EmptyString :: split sep s'
      else match split sep s' with
           | p :: ps => String c p :: ps
           | [] => [String c EmptyString]
           end
  end.

(** [a, b = parts]. *)
Definition unpack2 (parts : list string) : exn + (string * string) :=
  match parts with
  | [a; b] => inr (a, b)
  | _ => inl ValueError
  end.

(** [os.path.join(dir, name)] for a relative [name]. *)
Fixpoint ends_with_slash (s : string) : bool :=
  match s with
  | EmptyString => false
  | String c EmptyString => Ascii.eqb c "/"
  | String _ s' => ends_with_slash s'
  end.

Definition path_join (dir name : string) : string :=
  if (negb (truthy_str dir) || ends_with_slash dir)%bool then (dir ++ name)%string
  else (dir ++ "/" ++ name)%string.

(** [s.count(c)] for a one-character [c]. *)
Fixpoint count (c : ascii) (s : string) : nat :=
  match s with
  | EmptyString => 0%nat
  | String a s' => ((if Ascii.eqb a c then 1 else 0) + count c s')%nat
  end.

End Py.

(** ** The world the script runs in *)

(** What a path names. A file is kept as what [json.load] makes of its
    content: a value, or nothing when the content is not JSON. *)
Inductive fsnode :=
| Dir
| File (decoded : option pyval).

(** One line written by the helper on its standard output: [readline]
    returns it after [wait_ms] milliseconds; [decoded] is what [json.loads]
    makes of the line ([None]: it raises [JSONDecodeError]).  A line is
    never the empty string: it holds at least its newline. *)
Inductive stdout_item :=
| Line (wait_ms : N) (decoded : option pyval).

(** What the helper does once it has written all its lines: it closes its
    standard output (every later [readline] returns [''] at once), or it
    stays alive and silent (a later [readline] does not return). *)
Inductive stream_end := Closed | Silent.

(** The script's variable [process]: [None] until [Popen] has returned,
    then the child in one of its three states. *)
Inductive proc_state := NotStarted | Running | Exited | Killed.

(** What [readline] returns: [''] at end of file, or a line. *)
Inductive response :=
| NoData
| Data (decoded : option pyval).

(** The messages the script prints, one constructor per [print] call. *)
Inductive message :=
| MsgNoRepository                      (* line 18 *)
| MsgNoPrNumber                        (* line 44 *)
| MsgCheckingServer                    (* line 51 *)
| MsgServerFound (path : string)       (* line 58 *)
| MsgServerMissing (path : string)     (* line 61 *)
| MsgServerHint                        (* line 62 *)
| MsgReviewHeader (owner repo : string) (pull_number : pyval) (* line 68 *)
| MsgNoToken                           (* line 73 *)
| MsgServerSetupFailed                 (* line 79 *)
| MsgStartingServer                    (* line 89 *)
| MsgSendingInit                       (* line 120 *)
| MsgInitDone (init_response : response) (* line 126 *)
| MsgSendingReview                     (* line 143 *)
| MsgRepository (owner repo : string)  (* line 144 *)
| MsgPullRequest (pull_number : pyval) (* line 145 *)
| MsgWaiting                           (* line 151 *)
| MsgReceived (decoded : option pyval) (* line 158 *)
| MsgRpcError                          (* line 165 *)
| MsgErrorCode (code : pyval)          (* line 166 *)
| MsgErrorMessage (text : pyval)       (* line 167 *)
| MsgReviewOk                          (* line 172 *)
| MsgResult (result : pyval)           (* line 173 *)
| MsgUnexpected (response_data : pyval) (* line 177 *)
| MsgJsonError                         (* line 180 *)
| MsgRawResponse (decoded : option pyval) (* line 181 *)
| MsgTimeout                           (* line 187 *)
| MsgException (e : exn)               (* line 191 *)
| MsgHelp                              (* line 212, by argparse *)
| MsgUsage                             (* line 212, by argparse, on stderr *)
| MsgNoTarget                          (* line 220 *)
| MsgStart                             (* line 223 *)
| MsgTarget (owner repo : string) (pull_number : Z) (* line 224 *)
| MsgDone                              (* line 229 *)
| MsgFailed.                           (* line 232 *)

(** What the script does to its surroundings. *)
Inductive event :=
| EGetenv (name : string)
| EEnvironCopy
| EGetcwd
| EExists (path : string)
| EOpen (path : string)
| EPrint (m : message)
| EPopen (argv : list string) (token : string)
| EWrite (request : pyval)
| EFlush
| EReadline
| ESleep (ms : Z)
| ETerminate
| EWait (timeout_ms : Z)
| EKill.

Record world := World {
  environ : gmap string string;   (* os.environ *)
  cwd : string;                   (* os.getcwd() *)
  files : gmap string fsnode;     (* the paths that exist *)
  popen_fails : bool;             (* Popen raises OSError *)
  stdin_budget : option nat;      (* writes the helper's stdin takes before
                                     the pipe breaks; None: it never does *)
  sigterm_honoured : bool;        (* the helper exits within 5 s of SIGTERM *)
  stdout_end : stream_end;
  stdout : list stdout_item;      (* lines the helper has yet to deliver *)
  clock : Z;                      (* time.time(), in milliseconds *)
  process : proc_state;
  trace : list event              (* most recent event first *)
}.

Definition emit (e : event) (w : world) : world :=
  World (environ w) (cwd w) (files w) (popen_fails w) (stdin_budget w)
        (sigterm_honoured w) (stdout_end w) (stdout w) (clock w) (process w)
        (e :: trace w).

Definition advance (ms : Z) (w : world) : world :=
  World (environ w) (cwd w) (files w) (popen_fails w) (stdin_budget w)
        (sigterm_honoured w) (stdout_end w) (stdout w) (clock w + ms)
        (process w) (trace w).

Definition set_process (p : proc_state) (w : world) : world :=
  World (environ w) (cwd w) (files w) (popen_fails w) (stdin_budget w)
        (sigterm_honoured w) (stdout_end w) (stdout w) (clock w) p (trace w).

Definition set_stdout (l : list stdout_item) (w : world) : world :=
  World (environ w) (cwd w) (files w) (popen_fails w) (stdin_budget w)
        (sigterm_honoured w) (stdout_end w) l (clock w) (process w) (trace w).

Definition set_stdin_budget (b : option nat) (w : world) : world :=
  World (environ w) (cwd w) (files w) (popen_fails w) b
        (sigterm_honoured w) (stdout_end w) (stdout w) (clock w) (process w)
        (trace w).

(** The events of a run in the order they happened. *)
Definition history (w : world) : list event := rev (trace w).

(** ** The monad: state, exceptions, and calls that do not return *)

Inductive outcome (A : Type) :=
| Ret (a : A)          (* the call returned [a] *)
| Raise (e : exn)      (* the call raised [e] *)
| Blocked.             (* the call never returns *)
Arguments Ret {A} a.
Arguments Raise {A} e.
Arguments Blocked {A}.

Definition M (A : Type) : Type := world -> outcome A * world.

Definition ret {A} (a : A) : M A := fun w => (Ret a, w).

Definition raise {A} (e : exn) : M A := fun w => (Raise e, w).

Definition bind {A B} (m : M A) (k : A -> M B) : M B :=
  fun w =>
    match m w with
    | (Ret a, w') => k a w'
    | (Raise e, w') => (Raise e, w')
    | (Blocked, w') => (Blocked, w')
    end.

Notation "'run' x <- m ; k" := (bind m (fun x => k))
  (at level 10, x name, m at level 100, k at level 200).
Notation "'run' ' pat <- m ; k" :=
  (bind m (fun x => match x with pat => k end))
  (at level 10, pat pattern, m at level 100, k at level 200).
Notation "'exec' m ; k" := (bind m (fun _ => k))
  (at level 10, m at level 100, k at level 200).

(** A built-in that returns or raises. *)
Definition lift {A} (r : exn + A) : M A :=
  match r with inl e => raise e | inr a => ret a end.

(** [try: body except ...: handler]; [handler e] is [None] when no
    [except] clause matches [e]. *)
Definition try_except {A} (body : M A) (handler : exn -> option (M A)) : M A :=
  fun w =>
    match body w with
    | (Raise e, w') =>
        match handler e with
        | Some h => h w'
        | None => (Raise e, w')
        end
    | r => r
    end.

(** [try: body finally: cleanup]: the cleanup runs whether the body
    returned or raised, and its own exception replaces the body's result. *)
Definition try_finally {A} (body : M A) (cleanup : M unit) : M A :=
  fun w =>
    match body w with
    | (Blocked, w') => (Blocked, w')
    | (r, w') =>
        match cleanup w' with
        | (Ret _, w'') => (r, w'')
        | (Raise e, w'') => (Raise e, w'')
        | (Blocked, w'') => (Blocked, w'')
        end
    end.

(** ** The operations of the standard library, on the world *)

Definition print (m : message) : M unit :=
  fun w => (Ret tt, emit (EPrint m) w).

Definition os_environ_get (name : string) : M (option string) :=
  fun w => (Ret (environ w !! name), emit (EGetenv name) w).

Definition os_environ_copy : M (gmap string string) :=
  fun w => (Ret (environ w), emit EEnvironCopy w).

Definition os_getcwd : M string :=
  fun w => (Ret (cwd w), emit EGetcwd w).

Definition os_path_exists (path : string) : M bool :=
  fun w => (Ret (bool_decide (is_Some (files w !! path))), emit (EExists path) w).

(** [with open(path) as f: json.load(f)]. *)
Definition json_load_file (path : string) : M pyval :=
  fun w =>
    let w' := emit (EOpen path) w in
    match files w !! path with
    | Some (File (Some v)) => (Ret v, w')
    | Some (File None) => (Raise JSONDecodeError, w')
    | Some Dir => (Raise OSError, w')
    | None => (Raise OSError, w')
    end.

(** [json.loads(line)]. *)
Definition json_loads (decoded : option pyval) : M pyval :=
  match decoded with
  | Some v => ret v
  | None => raise JSONDecodeError
  end.

(** [subprocess.Popen([server_path, "stdio"], ..., env=env)]; on success
    the variable [process] holds the running child. *)
Definition subprocess_Popen (argv : list string) (env : gmap string string) : M unit :=
  fun w =>
    let w' := emit (EPopen argv (default "" (env !! "GITHUB_PERSONAL_ACCESS_TOKEN"))) w in
    if popen_fails w then (Raise OSError, w')
    else (Ret tt, set_process Running w').

(** [process.stdin.write(json.dumps(request) + '\n')]. *)
Definition stdin_write (request : pyval) : M unit :=
  fun w =>
    match stdin_budget w with
    | None => (Ret tt, emit (EWrite request) w)
    | Some (S n) => (Ret tt, emit (EWrite request) (set_stdin_budget (Some n) w))
    | Some O => (Raise BrokenPipeError, w)
    end.

Definition stdin_flush : M unit :=
  fun w => (Ret tt, emit EFlush w).

(** [process.stdout.readable()]: whether the stream was opened for
    reading, which a pipe from [Popen] always is; it says nothing about
    whether a line is waiting. *)
Definition stdout_readable : M bool := ret true.

(** The world once [readline] has returned a line that took [wait_ms] to
    come, with [rest] still to come. *)
Definition after_readline (wait_ms : N) (rest : list stdout_item) (w : world)
    : world :=
  set_stdout rest (advance (Z.of_N wait_ms) (emit EReadline w)).

(** [process.stdout.readline()]: returns the next line once the helper has
    written it, [''] at end of file, and does not return while the helper is
    alive and silent. *)
Definition stdout_readline : M response :=
  fun w =>
    match stdout w with
    | Line wait_ms decoded :: rest =>
        (Ret (Data decoded), after_readline wait_ms rest w)
    | [] =>
        match stdout_end w with
        | Closed => (Ret NoData, emit EReadline w)
        | Silent => (Blocked, emit EReadline w)
        end
    end.

Definition time_time : M Z := fun w => (Ret (clock w), w).

Definition time_sleep (ms : Z) : M unit :=
  fun w => (Ret tt, emit (ESleep ms) (advance ms w)).

Definition process_terminate : M unit :=
  fun w => (Ret tt, emit ETerminate w).

(** [process.wait(timeout=5)]. *)
Definition process_wait (timeout_ms : Z) : M unit :=
  fun w =>
    let w' := emit (EWait timeout_ms) w in
    if sigterm_honoured w then (Ret tt, set_process Exited w')
    else (Raise TimeoutExpired, advance timeout_ms w').

Definition process_kill : M unit :=
  fun w => (Ret tt, set_process Killed (emit EKill w)).

(** [sys.exit(code)]. *)
Definition sys_exit {A} (code : Z) : M A := raise (SystemExit code).

(** ** The script *)

(** Lines 36-41 of [get_pull_request_info]: the number in the event
    payload; [pr_number] is left as it was when the payload has none. *)
Definition event_pr_number (event_data pr_number : pyval) : M pyval :=
  run is_pr_event <- lift (Py.contains "pull_request" event_data);
  if is_pr_event then
    run pull_request <- lift (Py.getitem event_data "pull_request");
    lift (Py.getitem pull_request "number")
  else
    run has_issue <- lift (Py.contains "issue" event_data);
    if has_issue then
      run issue <- lift (Py.getitem event_data "issue");
      run is_pr_comment <- lift (Py.contains "pull_request" issue);
      if is_pr_comment then
        run issue <- lift (Py.getitem event_data "issue");
        lift (Py.getitem issue "number")
      else ret pr_number
    else ret pr_number.

(** [get_pull_request_info()], lines 13-47.  The result [None] stands for
    the triple [(None, None, None)]. *)
Definition get_pull_request_info : M (option (string * string * Z)) :=
  run repository <- os_environ_get "GITHUB_REPOSITORY";
  let repository := default "" repository in
  if negb (Py.truthy_str repository) then
    exec print MsgNoRepository;
    ret None
  else
    run '(owner, repo) <- lift (Py.unpack2 (Py.split "/" repository));
    run pr_number <- os_environ_get "PR_NUMBER";
    let pr_number := Py.of_env pr_number in
    run pr_number <-
      (if negb (Py.truthy pr_number) then
         run github_event_path <- os_environ_get "GITHUB_EVENT_PATH";
         if Py.truthy (Py.of_env github_event_path) then
           let path := default "" github_event_path in
           run present <- os_path_exists path;
           if present then
             run event_data <- json_load_file path;
             event_pr_number event_data pr_number
           else ret pr_number
         else ret pr_number
       else ret pr_number);
    if negb (Py.truthy pr_number) then
      exec print MsgNoPrNumber;
      ret None
    else
      run number <- lift (Py.int pr_number);
      ret (Some (owner, repo, number)).

(** [setup_mcp_server()], lines 49-63. *)
Definition setup_mcp_server : M (option string) :=
  exec print MsgCheckingServer;
  run dir <- os_getcwd;
  let server_path := Py.path_join dir "github-mcp-server" in
  run present <- os_path_exists server_path;
  if present then
    exec print (MsgServerFound server_path);
    ret (Some server_path)
  else
    exec print (MsgServerMissing server_path);
    exec print MsgServerHint;
    ret None.

(** The two requests, lines 101-118 and 129-141. *)
Definition init_request : pyval :=
  PDict {[
    "jsonrpc" := PStr "2.0";
    "id" := PInt 1;
    "method" := PStr "initialize";
    "params" := PDict {[
      "protocolVersion" := PStr "2024-11-05";
      "capabilities" := PDict {[
        "roots" := PDict {[ "listChanged" := PBool true ]};
        "sampling" := PDict ∅ ]};
      "clientInfo" := PDict {[
        "name" := PStr "github-actions-client";
        "version" := PStr "1.0.0" ]} ]} ]}.

Definition review_request (owner repo : string) (pullNumber : Z) : pyval :=
  PDict {[
    "jsonrpc" := PStr "2.0";
    "id" := PInt 2;
    "method" := PStr "tools/call";
    "params" := PDict {[
      "name" := PStr "request_copilot_review";
      "arguments" := PDict {[
        "owner" := PStr owner;
        "repo" := PStr repo;
        "pullNumber" := PInt pullNumber ]} ]} ]}.

(** How one pass through the body of the [while] loop ends. *)
Inductive loop_step :=
| Return (b : bool)    (* a [return] statement *)
| Break                (* the [break] of line 183 *)
| Next.                (* the end of the body: sleep, test the guard again *)

(** Lines 158-183: what is done with a line that has arrived. *)
Definition handle_response (decoded : option pyval) : M loop_step :=
  exec print (MsgReceived decoded);
  run returned <-
    try_except
      (run response_data <- json_loads decoded;
       run has_error <- lift (Py.contains "error" response_data);
       if has_error then
         run error <- lift (Py.getitem response_data "error");
         exec print MsgRpcError;
         run code <- lift (Py.get error "code" (PStr "unknown"));
         exec print (MsgErrorCode code);
         run text <- lift (Py.get error "message" (PStr "unknown error"));
         exec print (MsgErrorMessage text);
         ret (Some false)
       else
         run has_result <- lift (Py.contains "result" response_data);
         if has_result then
           run result <- lift (Py.getitem response_data "result");
           exec print MsgReviewOk;
           exec print (MsgResult result);
           ret (Some true)
         else
           exec print (MsgUnexpected response_data);
           ret None)
      (fun e =>
         if is_JSONDecodeError e then
           Some (exec print MsgJsonError;
                 exec print (MsgRawResponse decoded);
                 ret None)
         else None);
  match returned with
  | Some b => ret (Return b)
  | None => ret Break
  end.

(** Lines 155-183: the body of the loop, up to the sleep. *)
Definition poll_body : M loop_step :=
  run readable <- stdout_readable;
  if readable then
    run response <- stdout_readline;
    match response with
    | Data decoded => handle_response decoded
    | NoData => ret Next
    end
  else ret Next.

(** Lines 153-185: the [while] loop.  [Some b] is a [return b] from inside
    the loop; [None] is the loop left by its guard or by [break].  Every
    pass that reaches the sleep moves the clock 100 ms closer to the
    ceiling, which is why the loop ends. *)
Equations? poll (start_time : Z) (w : world) : outcome (option bool) * world
  by wf (Z.to_nat (start_time + 30000 - clock w)) lt :=
  poll start_time w with Z_lt_dec (clock w - start_time) 30000 := {
    | right _ := (Ret None, w);
    | left _ with inspect (poll_body w) := {
        | exist _ (Ret (Return b), w1) _ := (Ret (Some b), w1);
        | exist _ (Ret Break, w1) _ := (Ret None, w1);
        | exist _ (Ret Next, w1) _ := poll start_time (snd (time_sleep 100 w1));
        | exist _ (Raise e, w1) _ := (Raise e, w1);
        | exist _ (Blocked, w1) _ := (Blocked, w1) } }.
Proof.
  assert (clock w1 = clock w) as ->; [|lia].
  revert e. unfold poll_body, stdout_readable, stdout_readline, bind, ret.
  destruct (stdout w) as [|[d p] rest].
  - destruct (stdout_end w); simpl; intros [= <-]; reflexivity.
  - simpl. unfold handle_response, bind, print.
    destruct (try_except _ _ _) as [[[b|]|e|] w2]; simpl; discriminate.
Qed.

(** Lines 84-98: the helper is started, with the token in its
    environment. *)
Definition start_server (github_token server_path : string) : M unit :=
  run env <- os_environ_copy;
  let env := <["GITHUB_PERSONAL_ACCESS_TOKEN" := github_token]> env in
  exec print MsgStartingServer;
  subprocess_Popen [server_path; "stdio"] env.

(** Lines 100-151: the two requests are sent, and the answer to the first
    is read. *)
Definition handshake (owner repo : string) (pull_number : pyval) : M unit :=
  exec print MsgSendingInit;
  exec stdin_write init_request;
  exec stdin_flush;
  run init_response <- stdout_readline;
  exec print (MsgInitDone init_response);
  run pullNumber <- lift (Py.int pull_number);
  exec print MsgSendingReview;
  exec print (MsgRepository owner repo);
  exec print (MsgPullRequest pull_number);
  exec stdin_write (review_request owner repo pullNumber);
  exec stdin_flush;
  print MsgWaiting.

(** Lines 153-188: the wait for the response. *)
Definition await_response : M bool :=
  run start_time <- time_time;
  run returned <- poll start_time;
  match returned with
  | Some b => ret b
  | None =>
      exec print MsgTimeout;
      ret false
  end.

(** Lines 84-188: the body of the [try] statement. *)
Definition review_exchange (owner repo : string) (pull_number : pyval)
    (github_token server_path : string) : M bool :=
  exec start_server github_token server_path;
  exec handshake owner repo pull_number;
  await_response.

(** Lines 194-201: the [finally] clause. *)
Definition cleanup : M unit :=
  fun w =>
    match process w with
    | NotStarted => (Ret tt, w)
    | _ =>
        try_except
          (exec process_terminate; process_wait 5000)
          (fun _ => Some process_kill)
          w
    end.

(** Lines 190-192: the [except Exception as e] clause. *)
Definition on_exception (e : exn) : option (M bool) :=
  if is_Exception e then
    Some (exec print (MsgException e); ret false)
  else None.

(** [request_copilot_review(owner, repo, pull_number)], lines 65-203.
    The [return False] of line 203 cannot be reached: the [try] body and
    the [except] clause both end in a [return]. *)
Definition request_copilot_review (owner repo : string) (pull_number : pyval)
    : M bool :=
  exec print (MsgReviewHeader owner repo pull_number);
  run github_token <- os_environ_get "GITHUB_TOKEN";
  if negb (Py.truthy (Py.of_env github_token)) then
    exec print MsgNoToken;
    ret false
  else
    run server_path <- setup_mcp_server;
    if negb (Py.truthy (Py.of_env server_path)) then
      exec print MsgServerSetupFailed;
      ret false
    else
      try_finally
        (try_except
           (review_exchange owner repo pull_number
              (default "" github_token) (default "" server_path))
           on_exception)
        cleanup.

(** What [argparse] hands to [main]: each option is [None] when it was not
    given. *)
Record Namespace := {
  arg_owner : option string;
  arg_repo : option string;
  arg_pr : option string
}.

(** Lines 215-221 of [main]: the target of the request. *)
Definition main_target (args : Namespace) : M (string * string * Z) :=
  if (Py.truthy (Py.of_env (arg_owner args))
      && Py.truthy (Py.of_env (arg_repo args))
      && Py.truthy (Py.of_env (arg_pr args)))%bool then
    run pull_number <- lift (Py.int (Py.of_env (arg_pr args)));
    ret (default "" (arg_owner args), default "" (arg_repo args), pull_number)
  else
    run info <- get_pull_request_info;
    match info with
    | Some (owner, repo, pull_number) =>
        if (negb (Py.truthy_str owner) || negb (Py.truthy_str repo)
            || negb (Py.truthy (PInt pull_number)))%bool then
          exec print MsgNoTarget;
          sys_exit 1
        else ret (owner, repo, pull_number)
    | None =>
        exec print MsgNoTarget;
        sys_exit 1
    end.

(** Lines 223-233 of [main]: the request and the exit code. *)
Definition main_request (target : string * string * Z) : M unit :=
  let '(owner, repo, pull_number) := target in
  exec print MsgStart;
  exec print (MsgTarget owner repo pull_number);
  run success <- request_copilot_review owner repo (PInt pull_number);
  if success then
    exec print MsgDone;
    sys_exit 0
  else
    exec print MsgFailed;
    sys_exit 1.

(** What [argparse] makes of the command line, for the parser of lines
    207-210 (three options that take a string, and the help option it adds
    itself): the options in a [Namespace]; a request for help; or a
    command line that it cannot use (an unknown option, an option without
    its value, a stray argument). *)
Inductive command_line :=
| Options (args : Namespace)
| HelpOption
| UsageError.

(** [parser.parse_args()], line 212: it returns the options; for the help
    option it prints the help and exits with status 0; on an error it
    prints the usage and exits with status 2. *)
Definition parse_args (argv : command_line) : M Namespace :=
  match argv with
  | Options args => ret args
  | HelpOption =>
      exec print MsgHelp;
      sys_exit 0
  | UsageError =>
      exec print MsgUsage;
      sys_exit 2
  end.

(** [main()], lines 205-233. *)
Definition main (argv : command_line) : M unit :=
  run args <- parse_args argv;
  run target <- main_target args;
  main_request target.

(** The exit status of the interpreter running [main()]: the code given to
    [sys.exit], 1 for any other exception that nothing caught, 0 when the
    script runs to its end; none while a call does not return. *)
Definition exit_status {A} (o : outcome A) : option Z :=
  match o with
  | Ret _ => Some 0
  | Raise (SystemExit code) => Some code
  | Raise _ => Some 1
  | Blocked => None
  end.

(** ** Vocabulary of the statements *)

(** The test of line 215: the three options are given and none is
    empty. *)
Definition options_given (args : Namespace) : bool :=
  Py.truthy (Py.of_env (arg_owner args))
  && Py.truthy (Py.of_env (arg_repo args))
  && Py.truthy (Py.of_env (arg_pr args)).

(** What the resolver comes to once it has looked for the number, lines
    43-47: [found] is the number found, or the exception that looking for
    it raised. *)
Definition resolved (owner repo : string) (found : exn + pyval)
    : outcome (option (string * string * Z)) :=
  match found with
  | inl e => Raise e
  | inr v =>
      if Py.truthy v then
        match Py.int v with
        | inr number => Ret (Some (owner, repo, number))
        | inl e => Raise e
        end
      else Ret None
  end.


(** The override is unset for the script when the variable is missing or
    empty: line 30 tests [not pr_number]. *)
Definition override_unset (w : world) : Prop :=
  Py.truthy (Py.of_env (environ w !! "PR_NUMBER")) = false.

(** The event payload that the resolver finds: the variable names a path
    that exists and whose content decodes to the mapping [event]. *)
Definition event_payload (w : world) (event : gmap string pyval) : Prop :=
  exists path,
    environ w !! "GITHUB_EVENT_PATH" = Some path /\ path <> "" /\
    files w !! path = Some (File (Some (PDict event))).

(** The world once the resolver has read the two variables it reads on
    every run that gets past line 21. *)
Definition after_env_reads (w : world) : world :=
  emit (EGetenv "PR_NUMBER") (emit (EGetenv "GITHUB_REPOSITORY") w).

(** The access token is set and not empty: line 72 tests
    [not github_token]. *)
Definition token_present (w : world) : Prop :=
  Py.truthy (Py.of_env (environ w !! "GITHUB_TOKEN")) = true.

(** The helper executable is in the working directory. *)
Definition helper_path (w : world) : string :=
  Py.path_join (cwd w) "github-mcp-server".

Definition helper_present (w : world) : Prop :=
  is_Some (files w !! helper_path w).

(** The helper starts and takes both requests, and the lines it writes
    are [lines], the first of them its answer to [initialize]. *)
Record exchange_starts (w : world) (lines : list stdout_item) : Prop := {
  starts_token : token_present w;
  starts_helper : helper_present w;
  starts_popen : popen_fails w = false;
  starts_stdin :
    stdin_budget w = None \/ exists n, stdin_budget w = Some (S (S n));
  starts_fresh : process w = NotStarted;
  starts_stdout : stdout w = lines
}.

(** What the client prints and reads before the [try] statement, most
    recent first. *)
Definition prelude_events (owner repo : string) (pull_number : pyval)
    (w : world) : list event :=
  [EPrint (MsgServerFound (helper_path w)); EExists (helper_path w); EGetcwd;
   EPrint MsgCheckingServer; EGetenv "GITHUB_TOKEN";
   EPrint (MsgReviewHeader owner repo pull_number)].

(** The time the [finally] clause takes: the five seconds of the wait when
    the helper does not exit on its own. *)
Definition cleanup_time (w : world) : Z :=
  if sigterm_honoured w then 0 else 5000.

(** A line that is not JSON, or a mapping with neither an [error] nor a
    [result] key. *)
Definition unexpected_line (decoded : option pyval) : Prop :=
  decoded = None \/
  exists m, decoded = Some (PDict m) /\ m !! "error" = None /\ m !! "result" = None.

(** Events by which the script touches the helper process. *)
Definition touches_helper (e : event) : bool :=
  match e with
  | EPopen _ _ | EWrite _ | EFlush | EReadline
  | ETerminate | EWait _ | EKill => true
  | _ => false
  end.

(** [emits evs w]: the world [w] after the events [evs] (the most recent
    first), with nothing else changed. *)
Definition emits (evs : list event) (w : world) : world := foldr emit w evs.


(** A computation is orderly when it leaves the helper process in the
    state it found it, with its readiness to exit on SIGTERM, and raises
    nothing but subclasses of [Exception]. *)
Definition orderly {A} (m : M A) : Prop :=
  forall w,
    process (snd (m w)) = process w
    /\ sigterm_honoured (snd (m w)) = sigterm_honoured w
    /\ forall e, fst (m w) = Raise e -> is_Exception e = true.

(** Events by which the script only looks at its surroundings or
    prints. *)
Definition reads_or_prints (e : event) : bool :=
  match e with
  | EGetenv _ | EEnvironCopy | EGetcwd | EExists _ | EOpen _ | EPrint _ => true
  | _ => false
  end.

(** Events of the resolution of the target: as above, without the working
    directory, the copy of the environment and the access token. *)
Definition resolving (e : event) : bool :=
  match e with
  | EGetenv name => negb (String.eqb name "GITHUB_TOKEN")
  | EExists _ | EOpen _ | EPrint _ => true
  | _ => false
  end.

(** A computation is emitting [P] when all it does to the world is to add
    events that satisfy [P] to the trace. *)
Definition emitting (P : event -> bool) {A} (m : M A) : Prop :=
  forall w, exists evs,
    snd (m w) = emits evs w /\ Forall (fun e => P e = true) evs.

(** No source for the number: the variable naming the event payload is
    missing or empty, or names a path at which nothing exists. *)
Definition no_event_payload (w : world) : Prop :=
  Py.truthy (Py.of_env (environ w !! "GITHUB_EVENT_PATH")) = false
  \/ exists path, environ w !! "GITHUB_EVENT_PATH" = Some path
                  /\ files w !! path = None.

(** The events up to the launch of the helper, most recent first: those
    before the [try] statement, then lines 85-98. *)
Definition launch_events (owner repo : string) (pull_number : pyval)
    (w : world) : list event :=
  [EPopen [helper_path w; "stdio"] (default "" (environ w !! "GITHUB_TOKEN"));
   EPrint MsgStartingServer; EEnvironCopy]
  ++ prelude_events owner repo pull_number w.



(** One pass through the loop that finds the output closed: the read, then
    the sleep of a tenth of a second; and [k] such passes. *)
Definition idle_pass (w : world) : world :=
  emit (ESleep 100) (advance 100 (emit EReadline w)).

Definition idle (k : nat) (w : world) : world := Nat.iter k idle_pass w.

(** A computation is prompt when every call in it returns or raises. *)
Definition prompt {A} (m : M A) : Prop :=
  forall w, fst (m w) <> Blocked.

(** ** Sample worlds *)

(** A runner's world before the script has done anything. *)
Definition host (env : gmap string string) (fs : gmap string fsnode)
    (lines : list stdout_item) (ending : stream_end) : world :=
  {| environ := env;
     cwd := "/work";
     files := fs;
     popen_fails := false;
     stdin_budget := None;
     sigterm_honoured := true;
     stdout_end := ending;
     stdout := lines;
     clock := 0;
     process := NotStarted;
     trace := [] |}.

Definition init_line : stdout_item :=
  Line 20 (Some (PDict {[ "id" := PInt 1; "result" := PDict ∅ ]})).

Definition result_line : stdout_item :=
  Line 500 (Some (PDict {[ "id" := PInt 2; "result" := PStr "ok" ]})).

Definition error_line : stdout_item :=
  Line 500 (Some (PDict {[ "id" := PInt 2;
    "error" := PDict {[ "code" := PInt 1; "message" := PStr "x" ]} ]})).

Definition notification_line : stdout_item :=
  Line 500 (Some (PDict {[ "method" := PStr "notifications/message" ]})).

Definition garbage_line : stdout_item := Line 500 None.


(** A runner with the repository, the token and the helper in place, whose
    helper answers the handshake and then behaves as [lines] and [ending]
    say. *)
Definition runner (lines : list stdout_item) (ending : stream_end) : world :=
  host {[ "GITHUB_REPOSITORY" := "octo/cat"; "GITHUB_TOKEN" := "t0ken" ]}
       {[ "/work/github-mcp-server" := File None ]}
       (init_line :: lines) ending.

(** Event payloads: a [pull_request] event, a comment on a pull request,
    and a comment on a plain issue. *)
Definition pull_request_event : gmap string pyval :=
  {[ "action" := PStr "opened";
     "pull_request" := PDict {[ "number" := PInt 42 ]} ]}.

Definition pr_comment_event : gmap string pyval :=
  {[ "action" := PStr "created";
     "issue" := PDict {[ "number" := PInt 7;
                         "pull_request" := PDict {[ "url" := PStr "u" ]} ]} ]}.

Definition issue_comment_event : gmap string pyval :=
  {[ "action" := PStr "created";
     "issue" := PDict {[ "number" := PInt 7 ]} ]}.

(** A runner that resolves its target from the environment: the
    repository [repository], the override [pr] when given, and the event
    payload [event] at [/event.json]. *)
Definition actions_env (repository : string) (pr : option string)
    (event : gmap string pyval) : world :=
  host (<["GITHUB_REPOSITORY" := repository]>
          (<["GITHUB_EVENT_PATH" := "/event.json"]>
             (match pr with
              | Some s => {[ "PR_NUMBER" := s ]}
              | None => ∅
              end)))
       {[ "/event.json" := File (Some (PDict event)) ]} [] Closed.


(** A runner on which neither the token nor the helper is in place. *)
Definition bare_runner : world :=
  host {[ "GITHUB_REPOSITORY" := "octo/cat" ]} ∅ [] Closed.

(** A runner whose helper ignores SIGTERM. *)
Definition stubborn_runner (lines : list stdout_item) : world :=
  {| environ := environ (runner lines Silent);
     cwd := "/work";
     files := files (runner lines Silent);
     popen_fails := false;
     stdin_budget := None;
     sigterm_honoured := false;
     stdout_end := Silent;
     stdout := init_line :: lines;
     clock := 0;
     process := NotStarted;
     trace := [] |}.

(** The three options given on the command line. *)
Definition cli_args : Namespace :=
  {| arg_owner := Some "octo"; arg_repo := Some "cat"; arg_pr := Some "5" |}.

Definition no_args : Namespace :=
  {| arg_owner := None; arg_repo := None; arg_pr := None |}.

(** The three options given, the first of them as the empty string. *)
Definition empty_owner_args : Namespace :=
  {| arg_owner := Some ""; arg_repo := Some "cat"; arg_pr := Some "5" |}.

(** A comment on a pull request whose payload also has a [pull_request]
    key, with no number under it. *)
Definition numberless_event : gmap string pyval :=
  {[ "pull_request" := PDict {[ "url" := PStr "u" ]};
     "issue" := PDict {[ "number" := PInt 7;
                         "pull_request" := PDict {[ "url" := PStr "u" ]} ]} ]}.


(** A runner whose event path names [node]. *)
Definition payload_env (repository : string) (node : option fsnode) : world :=
  host {[ "GITHUB_REPOSITORY" := repository;
          "GITHUB_EVENT_PATH" := "/event.json" ]}
       (match node with
        | Some f => {[ "/event.json" := f ]}
        | None => ∅
        end) [] Closed.

(** The helper's answer to [initialize] on the sample runners. *)
Definition init_answer : option pyval :=
  Some (PDict {[ "id" := PInt 1; "result" := PDict ∅ ]}).
(** * Properties *)

(** ** Strings *)

(** The built-ins on sample inputs. *)
Example int_of_str_ex1 : Py.int_of_str " 42 " = Some 42. Proof. reflexivity. Qed.
Example int_of_str_ex2 : Py.int_of_str "-1_000" = Some (-1000). Proof. reflexivity. Qed.
Example int_of_str_ex3 : Py.int_of_str "4 2" = None. Proof. reflexivity. Qed.
Example int_of_str_ex4 : Py.int_of_str "1__0" = None. Proof. reflexivity. Qed.
Example int_of_str_ex5 : Py.int_of_str "" = None. Proof. reflexivity. Qed.
Example int_of_str_ex6 : Py.int_of_str "٤٢" = Some 42. Proof. reflexivity. Qed.
Example int_of_str_ex7 : Py.int_of_str "-１_２" = Some (-12). Proof. reflexivity. Qed.
Example int_of_str_ex8 :
  Py.int_of_str (String (ascii_of_nat 28) "42") = None.
Proof. reflexivity. Qed.
Example int_of_str_ex9 :
  Py.int_of_str (String (ascii_of_nat 194) (String (ascii_of_nat 160) "42"))
  = Some 42.
Proof. reflexivity. Qed.
Example int_of_str_ex10 :
  Py.int_of_str (String (ascii_of_nat 160) "42") = None.
Proof. reflexivity. Qed.
Example int_of_str_ex11 : Py.int_of_str "4²" = None. Proof. reflexivity. Qed.
Example split_ex1 : Py.split "/" "octo/cat" = ["octo"; "cat"]. Proof. reflexivity. Qed.
Example split_ex2 : Py.split "/" "octocat" = ["octocat"]. Proof. reflexivity. Qed.
Example split_ex3 : Py.split "/" "a/b/c" = ["a"; "b"; "c"]. Proof. reflexivity. Qed.
Example split_ex4 : Py.split "/" "" = [""]. Proof. reflexivity. Qed.
Example join_ex1 : Py.path_join "/work" "x" = "/work/x". Proof. reflexivity. Qed.
Example join_ex2 : Py.path_join "/" "x" = "/x". Proof. reflexivity. Qed.

Lemma split_no_sep s :
  Py.substring_of "/" s = false -> Py.split "/" s = [s].
Proof.
  induction s as [|c s IH]; [reflexivity|].
  cbn [Py.substring_of Py.startswith Py.split].
  rewrite (Ascii.eqb_sym c "/"). destruct (Ascii.eqb "/" c); [discriminate|].
  intros H. rewrite IH by exact H. reflexivity.
Qed.

Lemma split_two_nonempty repository owner repo :
  Py.split "/" repository = [owner; repo] -> Py.truthy_str repository = true.
Proof. destruct repository; [discriminate | reflexivity]. Qed.

Lemma truthy_str_true s : s <> "" -> Py.truthy_str s = true.
Proof. destruct s; [contradiction | reflexivity]. Qed.

Lemma truthy_of_env_true s : s <> "" -> Py.truthy (Py.of_env (Some s)) = true.
Proof. apply truthy_str_true. Qed.

(** ** The context resolver *)

(** C2. A non-empty repository identifier without a slash does not make
    the resolver return the empty result: the unpacking of line 21 raises
    [ValueError], and nothing in the function catches it. *)
Theorem repository_without_slash_raises w s :
  environ w !! "GITHUB_REPOSITORY" = Some s ->
  s <> "" ->
  Py.substring_of "/" s = false ->
  get_pull_request_info w
  = (Raise ValueError, emit (EGetenv "GITHUB_REPOSITORY") w).
Proof.
  intros Hrepo Hne Hslash.
  unfold get_pull_request_info, bind, os_environ_get.
  rewrite Hrepo. cbn [default from_option id].
  rewrite (truthy_str_true _ Hne), (split_no_sep _ Hslash). reflexivity.
Qed.

Lemma repository_without_slash_raises_witness :
  get_pull_request_info (actions_env "octocat" (Some "12") pull_request_event)
  = (Raise ValueError,
     emit (EGetenv "GITHUB_REPOSITORY")
       (actions_env "octocat" (Some "12") pull_request_event)).
Proof.
  apply (repository_without_slash_raises _ "octocat");
    [reflexivity | discriminate | reflexivity].
Defined.

Section Resolver.

Variable w : world.
Variables repository owner repo : string.
Hypothesis Hrepo : environ w !! "GITHUB_REPOSITORY" = Some repository.
Hypothesis Hsplit : Py.split "/" repository = [owner; repo].

Ltac resolver_start :=
  unfold get_pull_request_info, bind, os_environ_get;
  rewrite Hrepo; cbn [default from_option id];
  rewrite (split_two_nonempty _ _ _ Hsplit), Hsplit;
  cbn [negb lift Py.unpack2 ret environ emit].

Lemma override_decides s :
  environ w !! "PR_NUMBER" = Some s -> s <> "" ->
  get_pull_request_info w
  = (match Py.int (PStr s) with
     | inr n => Ret (Some (owner, repo, n))
     | inl e => Raise e
     end, after_env_reads w).
Proof.
  intros Hpr Hne. resolver_start.
  rewrite Hpr. cbn [Py.of_env Py.truthy]. rewrite (truthy_str_true _ Hne).
  cbn [negb ret Py.truthy Py.of_env]. rewrite (truthy_str_true _ Hne).
  cbn [negb lift]. destruct (Py.int (PStr s)); reflexivity.
Qed.

Ltac payload_start Hov Hpayload :=
  let path := fresh "path" in
  let Hpath := fresh "Hpath" in
  let Hne := fresh "Hne" in
  let Hfile := fresh "Hfile" in
  destruct Hpayload as (path & Hpath & Hne & Hfile);
  resolver_start;
  unfold override_unset in Hov; rewrite Hov; cbn [negb environ emit];
  rewrite Hpath, (truthy_of_env_true _ Hne);
  unfold os_path_exists, json_load_file;
  cbn [default from_option id files emit];
  rewrite Hfile, bool_decide_true by eauto;
  cbn [files emit]; rewrite Hfile;
  unfold event_pr_number, bind, lift, ret, raise;
  cbn [Py.contains Py.getitem].

Ltac number_found :=
  unfold resolved;
  match goal with
  | |- context [Py.getitem ?v "number"] =>
      destruct (Py.getitem v "number") as [?|number]; [reflexivity|];
      cbn [fst snd]; destruct (Py.truthy number); cbn [negb fst snd];
      [destruct (Py.int number); reflexivity | reflexivity]
  end.

Lemma pull_request_key_decides event v :
  override_unset w -> event_payload w event ->
  event !! "pull_request" = Some v ->
  fst (get_pull_request_info w) = resolved owner repo (Py.getitem v "number").
Proof.
  intros Hov Hpayload Hpr. payload_start Hov Hpayload.
  rewrite Hpr, bool_decide_true by eauto. number_found.
Qed.

Lemma issue_key_decides event issue :
  override_unset w -> event_payload w event ->
  event !! "pull_request" = None ->
  event !! "issue" = Some issue ->
  Py.contains "pull_request" issue = inr true ->
  fst (get_pull_request_info w)
  = resolved owner repo (Py.getitem issue "number").
Proof.
  intros Hov Hpayload Hpr Hissue Hkey. payload_start Hov Hpayload.
  rewrite Hpr, bool_decide_false by (intros [? ?]; discriminate).
  rewrite Hissue, bool_decide_true by eauto. rewrite Hkey. number_found.
Qed.

Lemma no_key_no_number event :
  override_unset w -> event_payload w event ->
  event !! "pull_request" = None ->
  event !! "issue" = None
  \/ (exists issue, event !! "issue" = Some issue
                    /\ Py.contains "pull_request" issue = inr false) ->
  fst (get_pull_request_info w) = Ret None.
Proof.
  intros Hov Hpayload Hpr Hnone. payload_start Hov Hpayload.
  rewrite Hpr, bool_decide_false by (intros [? ?]; discriminate).
  destruct Hnone as [Hissue | (issue & Hissue & Hkey)].
  - rewrite Hissue, bool_decide_false by (intros [? ?]; discriminate).
    rewrite Hov. reflexivity.
  - rewrite Hissue, bool_decide_true by eauto. rewrite Hkey, Hov. reflexivity.
Qed.

Lemma issue_not_searchable event issue e :
  override_unset w -> event_payload w event ->
  event !! "pull_request" = None ->
  event !! "issue" = Some issue ->
  Py.contains "pull_request" issue = inl e ->
  fst (get_pull_request_info w) = Raise e.
Proof.
  intros Hov Hpayload Hpr Hissue Hkey. payload_start Hov Hpayload.
  rewrite Hpr, bool_decide_false by (intros [? ?]; discriminate).
  rewrite Hissue, bool_decide_true by eauto. rewrite Hkey. reflexivity.
Qed.

End Resolver.

(** C6, as the code has it. With the repository identifier in its
    [owner/name] form: an override that is set and not empty decides
    alone, through [int], and the event payload is not even opened;
    otherwise a payload with a [pull_request] key gives the number under
    that key, and its [issue] is not looked at, even when that number is
    missing or falsy; otherwise an [issue] that holds a [pull_request] key
    gives the number under [issue]; otherwise there is no number (or the
    exception of the test, when [issue] is nothing that can be searched).
    The number found is tested for truth and passed through [int]. *)
Theorem pr_number_priority w repository owner repo :
  environ w !! "GITHUB_REPOSITORY" = Some repository ->
  Py.split "/" repository = [owner; repo] ->
  (forall s,
      environ w !! "PR_NUMBER" = Some s -> s <> "" ->
      get_pull_request_info w
      = (match Py.int (PStr s) with
         | inr n => Ret (Some (owner, repo, n))
         | inl e => Raise e
         end, after_env_reads w))
  /\ (forall event v,
      override_unset w -> event_payload w event ->
      event !! "pull_request" = Some v ->
      fst (get_pull_request_info w)
      = resolved owner repo (Py.getitem v "number"))
  /\ (forall event issue,
      override_unset w -> event_payload w event ->
      event !! "pull_request" = None ->
      event !! "issue" = Some issue ->
      Py.contains "pull_request" issue = inr true ->
      fst (get_pull_request_info w)
      = resolved owner repo (Py.getitem issue "number"))
  /\ (forall event,
      override_unset w -> event_payload w event ->
      event !! "pull_request" = None ->
      event !! "issue" = None
      \/ (exists issue, event !! "issue" = Some issue
                        /\ Py.contains "pull_request" issue = inr false) ->
      fst (get_pull_request_info w) = Ret None)
  /\ (forall event issue e,
      override_unset w -> event_payload w event ->
      event !! "pull_request" = None ->
      event !! "issue" = Some issue ->
      Py.contains "pull_request" issue = inl e ->
      fst (get_pull_request_info w) = Raise e).
Proof.
  intros Hrepo Hsplit. split; [|split; [|split; [|split]]].
  - intros s. exact (override_decides w repository owner repo Hrepo Hsplit s).
  - intros event v.
    exact (pull_request_key_decides w repository owner repo Hrepo Hsplit event v).
  - intros event issue.
    exact (issue_key_decides w repository owner repo Hrepo Hsplit event issue).
  - intros event.
    exact (no_key_no_number w repository owner repo Hrepo Hsplit event).
  - intros event issue e.
    exact (issue_not_searchable w repository owner repo Hrepo Hsplit
             event issue e).
Qed.

Lemma event_payload_actions_env repository pr event :
  event_payload (actions_env repository pr event) event.
Proof.
  exists "/event.json". split; [|split; [discriminate | reflexivity]].
  unfold actions_env, host. cbn [environ].
  rewrite lookup_insert_ne by discriminate. apply lookup_insert_eq.
Qed.

Lemma pr_number_priority_witness :
  fst (get_pull_request_info (actions_env "octo/cat" (Some "12") pull_request_event))
  = Ret (Some ("octo", "cat", 12))
  /\ fst (get_pull_request_info (actions_env "octo/cat" None pull_request_event))
    = Ret (Some ("octo", "cat", 42))
  /\ fst (get_pull_request_info (actions_env "octo/cat" None pr_comment_event))
    = Ret (Some ("octo", "cat", 7))
  /\ fst (get_pull_request_info (actions_env "octo/cat" None issue_comment_event))
    = Ret None.
Proof.
  split; [|split; [|split]].
  - rewrite (proj1 (pr_number_priority
               (actions_env "octo/cat" (Some "12") pull_request_event)
               "octo/cat" "octo" "cat" eq_refl eq_refl) "12");
      [reflexivity | reflexivity | discriminate].
  - rewrite (proj1 (proj2 (pr_number_priority
               (actions_env "octo/cat" None pull_request_event)
               "octo/cat" "octo" "cat" eq_refl eq_refl))
             pull_request_event (PDict {[ "number" := PInt 42 ]}));
      [reflexivity | reflexivity | apply event_payload_actions_env
      | reflexivity].
  - rewrite (proj1 (proj2 (proj2 (pr_number_priority
               (actions_env "octo/cat" None pr_comment_event)
               "octo/cat" "octo" "cat" eq_refl eq_refl)))
             pr_comment_event
             (PDict {[ "number" := PInt 7;
                       "pull_request" := PDict {[ "url" := PStr "u" ]} ]}));
      [reflexivity | reflexivity | apply event_payload_actions_env
      | reflexivity | reflexivity | reflexivity].
  - apply (proj1 (proj2 (proj2 (proj2 (pr_number_priority
               (actions_env "octo/cat" None issue_comment_event)
               "octo/cat" "octo" "cat" eq_refl eq_refl))))
             issue_comment_event);
      [reflexivity | apply event_payload_actions_env | reflexivity |].
    right. exists (PDict {[ "number" := PInt 7 ]}). split; reflexivity.
Defined.

(** C6 does not hold as stated. A payload with a [pull_request] key that
    holds no number does not send the resolver on to [issue.number]: the
    resolver raises [KeyError], although the payload is that of a comment
    on a pull request, with the number 7 under [issue]. *)
Lemma numberless_pull_request_hides_issue :
  fst (get_pull_request_info (actions_env "octo/cat" None numberless_event))
  = Raise (KeyError "number")
  /\ numberless_event !! "issue"
     = Some (PDict {[ "number" := PInt 7;
                      "pull_request" := PDict {[ "url" := PStr "u" ]} ]}).
Proof. split; reflexivity. Qed.






(** ** The polling loop *)

Lemma poll_step start_time w :
  poll start_time w =
  if Z_lt_dec (clock w - start_time) 30000 then
    match poll_body w with
    | (Ret (Return b), w1) => (Ret (Some b), w1)
    | (Ret Break, w1) => (Ret None, w1)
    | (Ret Next, w1) => poll start_time (snd (time_sleep 100 w1))
    | (Raise e, w1) => (Raise e, w1)
    | (Blocked, w1) => (Blocked, w1)
    end
  else (Ret None, w).
Proof.
  funelim (poll start_time w);
    match goal with H : Z_lt_dec _ _ = _ |- _ => rewrite H end;
    try reflexivity;
    match goal with H : poll_body _ = _ |- _ => rewrite H end;
    reflexivity.
Qed.

Ltac world_cbn :=
  cbn [environ cwd files popen_fails stdin_budget sigterm_honoured stdout_end
       stdout clock process trace emit advance set_process set_stdout
       set_stdin_budget after_readline].

Tactic Notation "world_cbn" "in" hyp(H) :=
  cbn [environ cwd files popen_fails stdin_budget sigterm_honoured stdout_end
       stdout clock process trace emit advance set_process set_stdout
       set_stdin_budget after_readline] in H.

(** ** Worlds that differ by events only *)

Lemma emits_cons e evs w : emits (e :: evs) w = emit e (emits evs w).
Proof. reflexivity. Qed.

Lemma emits_app evs1 evs2 w : emits (evs1 ++ evs2) w = emits evs1 (emits evs2 w).
Proof. unfold emits. apply foldr_app. Qed.

Lemma emits_fields evs w :
  environ (emits evs w) = environ w /\ cwd (emits evs w) = cwd w
  /\ files (emits evs w) = files w /\ popen_fails (emits evs w) = popen_fails w
  /\ stdin_budget (emits evs w) = stdin_budget w
  /\ sigterm_honoured (emits evs w) = sigterm_honoured w
  /\ stdout_end (emits evs w) = stdout_end w /\ stdout (emits evs w) = stdout w
  /\ clock (emits evs w) = clock w /\ process (emits evs w) = process w
  /\ trace (emits evs w) = evs ++ trace w.
Proof.
  induction evs as [|e evs IH]; [repeat split; reflexivity|].
  rewrite emits_cons. unfold emit at 1 2 3 4 5 6 7 8 9 10 11.
  cbn [environ cwd files popen_fails stdin_budget sigterm_honoured stdout_end
       stdout clock process trace].
  destruct IH as (?&?&?&?&?&?&?&?&?&?&Htrace).
  repeat split; try assumption. rewrite Htrace. reflexivity.
Qed.

Lemma stdout_emits evs w : stdout (emits evs w) = stdout w.
Proof. apply (emits_fields evs w). Qed.

Lemma clock_emits evs w : clock (emits evs w) = clock w.
Proof. apply (emits_fields evs w). Qed.

Lemma process_emits evs w : process (emits evs w) = process w.
Proof. apply (emits_fields evs w). Qed.

Lemma sigterm_emits evs w : sigterm_honoured (emits evs w) = sigterm_honoured w.
Proof. apply (emits_fields evs w). Qed.

Lemma trace_emits evs w : trace (emits evs w) = evs ++ trace w.
Proof. apply (emits_fields evs w). Qed.

(** ** A line that has arrived *)

Lemma handle_unparsable w :
  handle_response None w
  = (Ret Break,
     emits [EPrint (MsgRawResponse None); EPrint MsgJsonError;
            EPrint (MsgReceived None)] w).
Proof. reflexivity. Qed.

Lemma handle_neither m w :
  m !! "error" = None -> m !! "result" = None ->
  handle_response (Some (PDict m)) w
  = (Ret Break,
     emits [EPrint (MsgUnexpected (PDict m));
            EPrint (MsgReceived (Some (PDict m)))] w).
Proof.
  intros He Hr. unfold handle_response, bind, try_except, print, json_loads, lift, ret.
  cbn [Py.contains]. rewrite He, Hr.
  rewrite !bool_decide_false by (intros [? ?]; discriminate). reflexivity.
Qed.



Ltac emitted_with n tac :=
  (exists n; split; [reflexivity | split; [repeat constructor | tac]]).

Ltac emitted tac :=
  cbn [is_JSONDecodeError fst snd];
  first [ emitted_with (@nil event) tac
        | eexists [_]; split; [reflexivity | split; [repeat constructor | tac]]
        | eexists [_; _]; split; [reflexivity | split; [repeat constructor | tac]]
        | eexists [_; _; _]; split; [reflexivity | split; [repeat constructor | tac]]
        | eexists [_; _; _; _]; split; [reflexivity | split; [repeat constructor | tac]] ].

(** Whatever the line, handling it prints and does nothing else; it ends
    in a [return], in the [break], or in an exception that the outer
    [except Exception] catches; and [return True] needs a mapping with a
    [result] and without an [error]. *)
Lemma handle_response_shape decoded w :
  exists evs,
    snd (handle_response decoded w) = emits evs w
    /\ Forall (fun e => touches_helper e = false) evs
    /\ match fst (handle_response decoded w) with
       | Ret (Return true) =>
           exists m, decoded = Some (PDict m) /\ m !! "error" = None
                     /\ is_Some (m !! "result")
       | Ret (Return false) =>
           exists v, decoded = Some v /\ Py.contains "error" v = inr true
       | Ret Break => True
       | Ret Next => False
       | Raise e => is_Exception e = true
       | Blocked => False
       end.
Proof.
  unfold handle_response, bind, try_except, print, json_loads, lift, ret, raise.
  destruct decoded as [v|]; [|emitted ltac:(exact I)].
  destruct v as [|b|z|f|s|l|m]; cbn [Py.contains Py.getitem];
    try (emitted ltac:(reflexivity)).
  - destruct (Py.substring_of "error" s); [emitted ltac:(reflexivity)|].
    destruct (Py.substring_of "result" s); emitted ltac:(done).
  - destruct (existsb _ l); [emitted ltac:(reflexivity)|].
    destruct (existsb _ l); emitted ltac:(done).
  - destruct (m !! "error") as [error|] eqn:He.
    + rewrite bool_decide_true by eauto.
      destruct error; cbn [Py.get];
        first [ emitted ltac:(reflexivity)
              | emitted ltac:(eexists; split; [reflexivity|]; cbn [Py.contains];
                              rewrite He, bool_decide_true by eauto; reflexivity) ].
    + rewrite bool_decide_false by (intros [? ?]; discriminate).
      destruct (m !! "result") as [result|] eqn:Hr.
      * rewrite bool_decide_true by eauto.
        emitted ltac:(exists m; eauto).
      * rewrite bool_decide_false by (intros [? ?]; discriminate).
        emitted ltac:(exact I).
Qed.

(** ** The phases of the client *)

Lemma helper_path_truthy w : Py.truthy_str (helper_path w) = true.
Proof.
  unfold helper_path, Py.path_join.
  destruct (cwd w); [reflexivity|]. cbn [Py.truthy_str negb orb].
  destruct (Py.ends_with_slash _); reflexivity.
Qed.

Lemma client_prelude owner repo pull_number w :
  token_present w -> helper_present w ->
  request_copilot_review owner repo pull_number w
  = try_finally
      (try_except
         (review_exchange owner repo pull_number
            (default "" (environ w !! "GITHUB_TOKEN")) (helper_path w))
         on_exception)
      cleanup
      (emits (prelude_events owner repo pull_number w) w).
Proof.
  unfold token_present, helper_present. intros Htoken Hhelper.
  unfold request_copilot_review, bind, print, os_environ_get.
  cbn [environ emit]. rewrite Htoken. cbn [negb].
  unfold setup_mcp_server, bind, print, os_getcwd, os_path_exists, ret.
  cbn [cwd files emit]. fold (helper_path w).
  rewrite bool_decide_true by exact Hhelper.
  cbn [Py.of_env Py.truthy]. rewrite helper_path_truthy. reflexivity.
Qed.

Lemma start_server_runs token path w :
  popen_fails w = false ->
  exists w1,
    start_server token path w = (Ret tt, w1)
    /\ stdout w1 = stdout w /\ stdout_end w1 = stdout_end w
    /\ stdin_budget w1 = stdin_budget w /\ clock w1 = clock w
    /\ process w1 = Running
    /\ sigterm_honoured w1 = sigterm_honoured w
    /\ exists evs, trace w1 = evs ++ trace w.
Proof.
  intros Hpopen.
  unfold start_server, bind, os_environ_copy, print, subprocess_Popen.
  world_cbn. rewrite Hpopen. eexists; split; [reflexivity|]. world_cbn.
  repeat (split; [reflexivity|]). eexists [_; _; _]; reflexivity.
Qed.

Lemma start_server_fails token path w :
  popen_fails w = true ->
  exists evs, start_server token path w = (Raise OSError, emits evs w).
Proof.
  intros Hpopen.
  unfold start_server, bind, os_environ_copy, print, subprocess_Popen.
  world_cbn. rewrite Hpopen. eexists [_; _; _]; reflexivity.
Qed.

Lemma handshake_runs owner repo pull_number n w wait_ms decoded lines :
  stdin_budget w = None \/ (exists k, stdin_budget w = Some (S (S k))) ->
  stdout w = Line wait_ms decoded :: lines ->
  Py.int pull_number = inr n ->
  exists w1,
    handshake owner repo pull_number w = (Ret tt, w1)
    /\ stdout w1 = lines /\ stdout_end w1 = stdout_end w
    /\ clock w1 = clock w + Z.of_N wait_ms
    /\ process w1 = process w
    /\ sigterm_honoured w1 = sigterm_honoured w
    /\ exists evs, trace w1 = evs ++ trace w.
Proof.
  intros Hstdin Hout Hint.
  unfold handshake, bind, print, stdin_write, stdin_flush, stdout_readline,
    lift, ret.
  world_cbn. rewrite Hint.
  destruct Hstdin as [Hb | [k Hb]];
    repeat (progress (world_cbn; rewrite ?Hb, ?Hout));
    (eexists; split; [reflexivity|]); world_cbn;
    repeat (split; [reflexivity|]);
    (eexists [_; _; _; _; _; _; _; _; _; _; _]; reflexivity).
Qed.

(** The wait, when a line is there to be read: the line is handled, and
    the loop body is not entered a second time. *)
Lemma await_line w wait_ms decoded rest :
  stdout w = Line wait_ms decoded :: rest ->
  await_response w
  = match handle_response decoded (after_readline wait_ms rest w) with
    | (Ret (Return b), w2) => (Ret b, w2)
    | (Ret Break, w2) => (Ret false, emit (EPrint MsgTimeout) w2)
    | (Ret Next, w2) => await_response w
    | (Raise e, w2) => (Raise e, w2)
    | (Blocked, w2) => (Blocked, w2)
    end.
Proof.
  intros Hout.
  pose proof (handle_response_shape decoded (after_readline wait_ms rest w))
    as (evs & _ & _ & Hshape).
  unfold await_response at 1, bind, time_time. rewrite poll_step.
  destruct (Z_lt_dec _ _) as [_|Hge]; [|lia].
  unfold poll_body, bind, stdout_readable, stdout_readline, ret. rewrite Hout.
  destruct (handle_response _ _) as [[[b| |]|e|] w2]; cbn [fst] in Hshape;
    try contradiction; reflexivity.
Qed.

(** The [finally] clause, once the helper has been started. *)
Lemma cleanup_started w :
  process w <> NotStarted ->
  cleanup w
  = (Ret tt,
     if sigterm_honoured w then
       set_process Exited (emits [EWait 5000; ETerminate] w)
     else
       set_process Killed
         (emit EKill (advance 5000 (emits [EWait 5000; ETerminate] w)))).
Proof.
  intros Hstarted. unfold cleanup, try_except, bind, process_terminate,
    process_wait, process_kill.
  destruct (process w); [contradiction| | |];
    world_cbn; destruct (sigterm_honoured w); reflexivity.
Qed.

Lemma cleanup_not_started w :
  process w = NotStarted -> cleanup w = (Ret tt, w).
Proof. intros H. unfold cleanup. rewrite H. reflexivity. Qed.

(** What the [finally] clause leaves of a world in which the helper was
    started. *)
Lemma cleanup_fields w :
  process w <> NotStarted ->
  fst (cleanup w) = Ret tt
  /\ stdout (snd (cleanup w)) = stdout w
  /\ clock (snd (cleanup w)) = clock w + cleanup_time w
  /\ (process (snd (cleanup w)) = Exited
      /\ trace (snd (cleanup w)) = EWait 5000 :: ETerminate :: trace w
      /\ sigterm_honoured w = true
      \/ process (snd (cleanup w)) = Killed
         /\ trace (snd (cleanup w)) = EKill :: EWait 5000 :: ETerminate :: trace w
         /\ sigterm_honoured w = false).
Proof.
  intros Hstarted. rewrite (cleanup_started w Hstarted). unfold cleanup_time.
  destruct (sigterm_honoured w); world_cbn; cbn [fst snd emits foldr];
    world_cbn; (split; [reflexivity|]); (split; [reflexivity|]);
    (split; [lia|]); [left | right]; auto.
Qed.

(** The whole client, when the helper starts and a line follows its
    answer to [initialize]: the result is decided by that one line. *)
Lemma client_first_line owner repo pull_number n w wait0 decoded0 wait_ms decoded rest :
  exchange_starts w (Line wait0 decoded0 :: Line wait_ms decoded :: rest) ->
  Py.int pull_number = inr n ->
  exists wl,
    stdout wl = rest
    /\ clock wl = clock w + Z.of_N wait0 + Z.of_N wait_ms
    /\ process wl = Running
    /\ sigterm_honoured wl = sigterm_honoured w
    /\ (exists evs, trace wl = evs ++ trace w)
    /\ request_copilot_review owner repo pull_number w
       = match handle_response decoded wl with
         | (Ret (Return b), w2) => (Ret b, snd (cleanup w2))
         | (Ret Break, w2) =>
             (Ret false, snd (cleanup (emit (EPrint MsgTimeout) w2)))
         | (Raise e, w2) =>
             (Ret false, snd (cleanup (emit (EPrint (MsgException e)) w2)))
         | (Ret Next, w2) => (Blocked, w2)
         | (Blocked, w2) => (Blocked, w2)
         end.
Proof.
  intros [Htoken Hhelper Hpopen Hstdin Hfresh Hout] Hint.
  set (w0 := emits (prelude_events owner repo pull_number w) w).
  pose proof (emits_fields (prelude_events owner repo pull_number w) w)
    as (_&_&_&Hp&Hb&Hs&_&Ho&Hc&_&Ht). fold w0 in Hp, Hb, Hs, Ho, Hc, Ht.
  destruct (start_server_runs (default "" (environ w !! "GITHUB_TOKEN"))
              (helper_path w) w0)
    as (ws & Hstart & Houts & _ & Hbs & Hclocks & Hprocs & Hsigs & evss & Htraces);
    [congruence|].
  destruct (handshake_runs owner repo pull_number n ws
              wait0 decoded0 (Line wait_ms decoded :: rest))
    as (w1 & Hrun & Hout1 & _ & Hclock1 & Hproc1 & Hsig1 & evs1 & Htrace1);
    [rewrite Hbs, Hb; exact Hstdin | congruence | exact Hint |].
  rewrite Hprocs in Hproc1.
  exists (after_readline wait_ms rest w1).
  unfold after_readline at 1 2 3 4 5. world_cbn.
  split; [reflexivity|]. split; [lia|]. split; [exact Hproc1|].
  split; [congruence|].
  split; [exists (EReadline :: evs1 ++ evss ++ prelude_events owner repo pull_number w);
          rewrite Htrace1, Htraces, Ht, <- app_comm_cons, <- !app_assoc;
          reflexivity|].
  rewrite (client_prelude owner repo pull_number w Htoken Hhelper). fold w0.
  unfold try_finally, try_except, review_exchange, bind. rewrite Hstart, Hrun.
  rewrite (await_line w1 wait_ms decoded rest Hout1).
  pose proof (handle_response_shape decoded (after_readline wait_ms rest w1))
    as (evs & Hw2 & _ & Hshape).
  assert (Hrunning : forall evs' , process (emits evs' (emits evs (after_readline wait_ms rest w1))) <> NotStarted).
  { intros evs'. rewrite !process_emits. unfold after_readline. world_cbn.
    rewrite Hproc1. discriminate. }
  destruct (handle_response _ _) as [[[b| |]|e|] w2];
    cbn [fst snd] in Hshape, Hw2; try contradiction; subst w2.
  - pose proof (cleanup_started _ (Hrunning [])) as Hc2. cbn [emits foldr] in Hc2.
    rewrite Hc2. reflexivity.
  - unfold print, ret.
    pose proof (cleanup_started _ (Hrunning [EPrint MsgTimeout])) as Hc2.
    cbn [emits foldr] in Hc2. cbn [emits foldr]. rewrite Hc2. reflexivity.
  - unfold on_exception. rewrite Hshape. unfold bind, print, ret.
    pose proof (cleanup_started _ (Hrunning [EPrint (MsgException e)])) as Hc2.
    cbn [emits foldr] in Hc2. cbn [emits foldr]. rewrite Hc2. reflexivity.
Qed.

(** ** What no step of the script does *)

Lemma orderly_ret {A} (a : A) : orderly (ret a).
Proof. intros w. repeat split. discriminate. Qed.

Lemma orderly_raise {A} e : is_Exception e = true -> orderly (@raise A e).
Proof. intros He w. repeat split. intros e' [= <-]. exact He. Qed.

Lemma orderly_bind {A B} (m : M A) (k : A -> M B) :
  orderly m -> (forall a, orderly (k a)) -> orderly (bind m k).
Proof.
  intros Hm Hk w. unfold bind. specialize (Hm w).
  destruct (m w) as [[a|e|] w1]; cbn [fst snd] in Hm.
  - destruct Hm as (Hp & Hs & _). specialize (Hk a w1).
    destruct Hk as (Hp' & Hs' & He'). rewrite Hp', Hs'. auto.
  - destruct Hm as (Hp & Hs & He). repeat split; [assumption..|].
    cbn [fst]. intros e' [= <-]. apply He. reflexivity.
  - destruct Hm as (Hp & Hs & _). repeat split; [assumption..|discriminate].
Qed.

Lemma orderly_try_except {A} (body : M A) handler :
  orderly body ->
  (forall e h, handler e = Some h -> orderly h) ->
  orderly (try_except body handler).
Proof.
  intros Hb Hh w. unfold try_except. specialize (Hb w).
  destruct (body w) as [[a|e|] w1]; cbn [fst snd] in Hb; try exact Hb.
  destruct (handler e) as [h|] eqn:Hhe; [|exact Hb].
  destruct Hb as (Hp & Hs & _). specialize (Hh e h Hhe w1).
  destruct Hh as (Hp' & Hs' & He'). rewrite Hp', Hs'. auto.
Qed.

Lemma orderly_lift {A} (r : exn + A) :
  (forall e, r = inl e -> is_Exception e = true) -> orderly (lift r).
Proof.
  intros Hr. destruct r as [e|a]; [apply orderly_raise; auto | apply orderly_ret].
Qed.

Lemma orderly_emitting {A} (f : world -> A) (g : world -> event) :
  orderly (fun w => (Ret (f w), emit (g w) w)).
Proof. intros w. repeat split. discriminate. Qed.

Lemma orderly_print m : orderly (print m).
Proof. intros w. repeat split. discriminate. Qed.

Lemma orderly_os_environ_get name : orderly (os_environ_get name).
Proof. intros w. repeat split. discriminate. Qed.

Lemma orderly_os_path_exists path : orderly (os_path_exists path).
Proof. intros w. repeat split. discriminate. Qed.

Lemma orderly_json_load_file path : orderly (json_load_file path).
Proof.
  intros w. unfold json_load_file.
  destruct (files w !! path) as [[|[v|]]|]; repeat split;
    cbn [fst]; intros e [= <-]; reflexivity.
Qed.

Lemma orderly_json_loads decoded : orderly (json_loads decoded).
Proof.
  destruct decoded; [apply orderly_ret | apply orderly_raise; reflexivity].
Qed.

Lemma orderly_stdin_write request : orderly (stdin_write request).
Proof.
  intros w. unfold stdin_write.
  destruct (stdin_budget w) as [[|k]|]; repeat split;
    cbn [fst]; try discriminate. intros e [= <-]; reflexivity.
Qed.

Lemma orderly_stdin_flush : orderly stdin_flush.
Proof. intros w. repeat split. discriminate. Qed.

Lemma orderly_stdout_readline : orderly stdout_readline.
Proof.
  intros w. unfold stdout_readline.
  destruct (stdout w) as [|[d p] rest]; [destruct (stdout_end w)|];
    repeat split; discriminate.
Qed.

Lemma orderly_time_time : orderly time_time.
Proof. intros w. repeat split. discriminate. Qed.

Lemma orderly_time_sleep ms : orderly (time_sleep ms).
Proof. intros w. repeat split. discriminate. Qed.

(** The built-ins raise ordinary exceptions. *)
Lemma int_raises v e : Py.int v = inl e -> is_Exception e = true.
Proof.
  destruct v as [|b|z|f|s|l|m]; cbn [Py.int]; try (intros [= <-]; reflexivity).
  - destruct f; cbn [Py.int_of_float]; intros [= <-]; reflexivity.
  - destruct (Py.int_of_str s); intros [= <-]; reflexivity.
Qed.

Lemma contains_raises k v e : Py.contains k v = inl e -> is_Exception e = true.
Proof. destruct v; cbn [Py.contains]; intros [= <-]; reflexivity. Qed.

Lemma getitem_raises v k e : Py.getitem v k = inl e -> is_Exception e = true.
Proof.
  destruct v as [| | | | | |m]; cbn [Py.getitem]; try (intros [= <-]; reflexivity).
  destruct (m !! k); intros [= <-]; reflexivity.
Qed.

Lemma get_raises v k d e : Py.get v k d = inl e -> is_Exception e = true.
Proof. destruct v; cbn [Py.get]; intros [= <-]; reflexivity. Qed.

Lemma unpack2_raises parts e : Py.unpack2 parts = inl e -> is_Exception e = true.
Proof.
  destruct parts as [|a [|b [|c parts]]]; cbn [Py.unpack2];
    intros [= <-]; reflexivity.
Qed.

Create HintDb orderly.
#[local] Hint Resolve orderly_ret orderly_print orderly_os_environ_get
  orderly_os_path_exists orderly_json_load_file orderly_json_loads
  orderly_stdin_write orderly_stdin_flush orderly_stdout_readline
  orderly_time_time orderly_time_sleep : orderly.
#[local] Hint Resolve int_raises contains_raises getitem_raises get_raises
  unpack2_raises : orderly.

(** Goes through a computation built from the operations above. *)
Ltac orderly_step :=
  lazymatch goal with
  | |- orderly (bind _ _) => apply orderly_bind; [|intros ?]
  | |- orderly (lift _) => apply orderly_lift; eauto with orderly
  | |- orderly (try_except _ _) => apply orderly_try_except
  | |- orderly (if ?b then _ else _) => destruct b
  | |- orderly (match ?x with _ => _ end) => destruct x
  | |- orderly (raise _) => apply orderly_raise; reflexivity
  | |- orderly _ => solve [eauto with orderly]
  end.

Ltac orderly := repeat orderly_step.

Lemma orderly_event_pr_number event_data pr_number :
  orderly (event_pr_number event_data pr_number).
Proof. unfold event_pr_number. orderly. Qed.

Lemma orderly_get_pull_request_info : orderly get_pull_request_info.
Proof.
  unfold get_pull_request_info. orderly.
  all: try apply orderly_event_pr_number.
Qed.

Lemma orderly_handle_response decoded : orderly (handle_response decoded).
Proof.
  unfold handle_response. orderly.
  intros e h. destruct (is_JSONDecodeError e); [|discriminate].
  intros [= <-]. orderly.
Qed.

Lemma orderly_poll_body : orderly poll_body.
Proof.
  unfold poll_body, stdout_readable. orderly.
  all: try apply orderly_handle_response.
Qed.

Lemma orderly_poll start_time : orderly (poll start_time).
Proof.
  intros w. funelim (poll start_time w); cbn [fst snd];
    try (repeat split; discriminate);
    match goal with
    | H : poll_body ?w = _ |- _ =>
        pose proof (orderly_poll_body w) as Hbody; rewrite H in Hbody;
        cbn [fst snd] in Hbody; destruct Hbody as (Hp & Hs & He)
    end.
  - repeat split; [assumption..|discriminate].
  - repeat split; [assumption..|discriminate].
  - destruct H as (Hp' & Hs' & He'). rewrite Hp', Hs'. cbn [snd time_sleep].
    world_cbn. auto.
  - repeat split; [assumption..|]. intros e' [= <-]. apply He. reflexivity.
  - repeat split; [assumption..|discriminate].
Qed.

Lemma orderly_await_response : orderly await_response.
Proof.
  unfold await_response. orderly. apply orderly_poll.
Qed.

Lemma orderly_handshake owner repo pull_number :
  orderly (handshake owner repo pull_number).
Proof. unfold handshake. orderly. Qed.

(** ** The protocol client as a whole *)

(** The [try] statement with its [except] clause: it returns a boolean
    unless a call in it never returns, and it leaves the helper running
    when, and only when, [Popen] succeeded. *)
Lemma guarded_exchange_cases owner repo pull_number token path w :
  let body := try_except (review_exchange owner repo pull_number token path)
                on_exception in
  fst (body w) <> Blocked ->
  (exists b, fst (body w) = Ret b)
  /\ sigterm_honoured (snd (body w)) = sigterm_honoured w
  /\ (process (snd (body w)) = process w /\ popen_fails w = true
      \/ process (snd (body w)) = Running /\ popen_fails w = false).
Proof.
  intros body. subst body. unfold try_except, review_exchange, bind.
  destruct (popen_fails w) eqn:Hpopen.
  - destruct (start_server_fails token path w Hpopen) as (evs & ->).
    cbn [on_exception is_Exception]. unfold bind, print, ret. cbn [fst snd].
    intros _. split; [eauto|]. world_cbn.
    rewrite sigterm_emits, process_emits. auto.
  - destruct (start_server_runs token path w Hpopen)
      as (ws & -> & _ & _ & _ & _ & Hprocs & Hsigs & _).
    pose proof (orderly_bind _ _ (orderly_handshake owner repo pull_number)
                  (fun _ => orderly_await_response) ws) as (Hp & Hs & He).
    unfold bind in Hp, Hs, He.
    destruct (handshake owner repo pull_number ws) as [[[]|e|] w1].
    + destruct (await_response w1) as [[b|e|] w2]; cbn [fst snd] in *.
      * intros _. split; [eauto|]. split; [congruence|]. right. split; congruence.
      * unfold on_exception. rewrite (He e eq_refl).
        unfold bind, print, ret. cbn [fst snd]. world_cbn.
        intros _. split; [eauto|]. split; [congruence|].
        right. split; congruence.
      * intros H; contradiction.
    + cbn [fst snd] in *. unfold on_exception. rewrite (He e eq_refl).
      unfold bind, print, ret. cbn [fst snd]. world_cbn.
      intros _. split; [eauto|]. split; [congruence|]. right. split; congruence.
    + cbn [fst]. intros H; contradiction.
Qed.

Lemma client_no_token owner repo pull_number w :
  ~ token_present w ->
  request_copilot_review owner repo pull_number w
  = (Ret false,
     emits [EPrint MsgNoToken; EGetenv "GITHUB_TOKEN";
            EPrint (MsgReviewHeader owner repo pull_number)] w).
Proof.
  unfold token_present. intros Htoken%not_true_is_false.
  unfold request_copilot_review, bind, print, os_environ_get.
  world_cbn. rewrite Htoken. reflexivity.
Qed.

Lemma client_no_helper owner repo pull_number w :
  token_present w -> ~ helper_present w ->
  request_copilot_review owner repo pull_number w
  = (Ret false,
     emits [EPrint MsgServerSetupFailed; EPrint MsgServerHint;
            EPrint (MsgServerMissing (helper_path w));
            EExists (helper_path w); EGetcwd; EPrint MsgCheckingServer;
            EGetenv "GITHUB_TOKEN";
            EPrint (MsgReviewHeader owner repo pull_number)] w).
Proof.
  unfold token_present, helper_present. intros Htoken Hhelper.
  unfold request_copilot_review, bind, print, os_environ_get.
  world_cbn. rewrite Htoken. cbn [negb].
  unfold setup_mcp_server, bind, print, os_getcwd, os_path_exists, ret.
  world_cbn. fold (helper_path w).
  rewrite bool_decide_false by exact Hhelper. reflexivity.
Qed.

(** The three ways through the client. *)
Lemma client_cases w :
  (~ token_present w) \/ (token_present w /\ ~ helper_present w)
  \/ (token_present w /\ helper_present w).
Proof.
  unfold token_present, helper_present.
  destruct (Py.truthy _); [|left; discriminate].
  destruct (decide (is_Some (files w !! helper_path w))); auto.
Qed.



(** C4. Whenever the client returns, the helper is not running: it was
    never started (no token, no helper, or [Popen] failed), or it was sent
    SIGTERM and exited within the five seconds of the wait, or it did not
    and was killed.  The last events of the run are the terminate, the
    wait and, in the third case, the kill. *)
Theorem subprocess_always_terminated owner repo pull_number w :
  process w = NotStarted ->
  fst (request_copilot_review owner repo pull_number w) <> Blocked ->
  let w' := snd (request_copilot_review owner repo pull_number w) in
  (process w' = NotStarted
   /\ (~ token_present w \/ ~ helper_present w \/ popen_fails w = true))
  \/ (process w' = Exited /\ sigterm_honoured w = true
      /\ exists t, trace w' = EWait 5000 :: ETerminate :: t)
  \/ (process w' = Killed /\ sigterm_honoured w = false
      /\ exists t, trace w' = EKill :: EWait 5000 :: ETerminate :: t).
Proof.
  intros Hfresh.
  destruct (client_cases w) as [Hno | [[Htoken Hno] | [Htoken Hhelper]]].
  - rewrite client_no_token by assumption. cbn [snd]. intros _. left.
    rewrite process_emits. auto.
  - rewrite client_no_helper by assumption. cbn [snd]. intros _. left.
    rewrite process_emits. auto.
  - rewrite client_prelude by assumption. unfold try_finally.
    set (w0 := emits _ w).
    pose proof (emits_fields (prelude_events owner repo pull_number w) w)
      as (_&_&_&Hpf&_&Hsig&_&_&_&Hproc&_). fold w0 in Hpf, Hsig, Hproc.
    pose proof (guarded_exchange_cases owner repo pull_number
                  (default "" (environ w !! "GITHUB_TOKEN")) (helper_path w)
                  w0) as Hcases. cbv zeta in Hcases.
    destruct (try_except _ _ w0) as [[b|e|] w1]; cbn [fst snd] in *;
      [| |intros H; contradiction].
    + destruct (Hcases ltac:(discriminate)) as (_ & Hs & [[Hp Hfail]|[Hp _]]).
      * rewrite cleanup_not_started by congruence. cbn [snd]. intros _.
        left. split; [congruence|]. right; right; congruence.
      * assert (Hstarted : process w1 <> NotStarted) by (rewrite Hp; discriminate).
        destruct (cleanup_fields w1 Hstarted) as (Hret & _ & _ & Hend).
        destruct (cleanup w1) as [[[]|?|] w2]; cbn [fst snd] in *;
          try discriminate.
        intros _. right.
        destruct Hend as [(He & Ht & Hh) | (He & Ht & Hh)]; [left | right];
          (split; [exact He|]); (split; [congruence|]); eauto.
    + destruct (Hcases ltac:(discriminate)) as ([b Hb] & _). discriminate.
Qed.

Lemma subprocess_always_terminated_witness :
  let w' := snd (request_copilot_review "octo" "cat" (PInt 7)
                   (stubborn_runner [error_line])) in
  (process w' = NotStarted
   /\ (~ token_present (stubborn_runner [error_line])
       \/ ~ helper_present (stubborn_runner [error_line])
       \/ popen_fails (stubborn_runner [error_line]) = true))
  \/ (process w' = Exited /\ sigterm_honoured (stubborn_runner [error_line]) = true
      /\ exists t, trace w' = EWait 5000 :: ETerminate :: t)
  \/ (process w' = Killed /\ sigterm_honoured (stubborn_runner [error_line]) = false
      /\ exists t, trace w' = EKill :: EWait 5000 :: ETerminate :: t).
Proof.
  apply (subprocess_always_terminated "octo" "cat" (PInt 7)
           (stubborn_runner [error_line])).
  - reflexivity.
  - vm_compute. discriminate.
Defined.

(** C7. Without the access token (missing or empty), or without the helper
    executable in the working directory, the client returns [False] having
    done nothing but read its surroundings and print: no process is
    started, nothing is written or read, and the clock has not moved. *)
Theorem missing_token_or_helper_fails_early owner repo pull_number w :
  ~ token_present w \/ ~ helper_present w ->
  exists evs,
    request_copilot_review owner repo pull_number w = (Ret false, emits evs w)
    /\ Forall (fun e => touches_helper e = false) evs.
Proof.
  intros Habsent.
  destruct (client_cases w) as [Hno | [[Htoken Hno] | [Htoken Hhelper]]].
  - eexists. split; [apply client_no_token; assumption|].
    repeat constructor.
  - eexists. split; [apply client_no_helper; assumption|].
    repeat constructor.
  - destruct Habsent; contradiction.
Qed.

Lemma missing_token_or_helper_fails_early_witness :
  exists evs,
    request_copilot_review "octo" "cat" (PInt 7) bare_runner
    = (Ret false, emits evs bare_runner)
    /\ Forall (fun e => touches_helper e = false) evs.
Proof.
  apply (missing_token_or_helper_fails_early "octo" "cat" (PInt 7) bare_runner).
  left. unfold token_present. vm_compute. discriminate.
Defined.

(** The client up to the wait, when the helper starts and answers the
    handshake. *)
Lemma client_reaches_wait owner repo pull_number n w wait0 decoded0 lines :
  exchange_starts w (Line wait0 decoded0 :: lines) ->
  Py.int pull_number = inr n ->
  exists w1,
    stdout w1 = lines /\ stdout_end w1 = stdout_end w
    /\ clock w1 = clock w + Z.of_N wait0
    /\ process w1 = Running
    /\ sigterm_honoured w1 = sigterm_honoured w
    /\ request_copilot_review owner repo pull_number w
       = try_finally (try_except await_response on_exception) cleanup w1.
Proof.
  intros [Htoken Hhelper Hpopen Hstdin Hfresh Hout] Hint.
  set (w0 := emits (prelude_events owner repo pull_number w) w).
  pose proof (emits_fields (prelude_events owner repo pull_number w) w)
    as (_&_&_&Hp&Hb&Hs&He&Ho&Hc&_&_). fold w0 in Hp, Hb, Hs, He, Ho, Hc.
  destruct (start_server_runs (default "" (environ w !! "GITHUB_TOKEN"))
              (helper_path w) w0)
    as (ws & Hstart & Houts & Hends & Hbs & Hclocks & Hprocs & Hsigs & _);
    [congruence|].
  destruct (handshake_runs owner repo pull_number n ws wait0 decoded0 lines)
    as (w1 & Hrun & Hout1 & Hend1 & Hclock1 & Hproc1 & Hsig1 & _);
    [rewrite Hbs, Hb; exact Hstdin | congruence | exact Hint |].
  exists w1. split; [exact Hout1|]. split; [congruence|]. split; [lia|].
  split; [congruence|]. split; [congruence|].
  rewrite (client_prelude owner repo pull_number w Htoken Hhelper). fold w0.
  unfold try_finally, try_except, review_exchange, bind.
  rewrite Hstart, Hrun. reflexivity.
Qed.

(** ** The wait when no line comes *)

Lemma poll_body_closed w :
  stdout w = [] -> stdout_end w = Closed ->
  poll_body w = (Ret Next, emit EReadline w).
Proof.
  intros Hout Hend. unfold poll_body, bind, stdout_readable, stdout_readline, ret.
  rewrite Hout, Hend. reflexivity.
Qed.

Lemma poll_body_silent w :
  stdout w = [] -> stdout_end w = Silent ->
  poll_body w = (Blocked, emit EReadline w).
Proof.
  intros Hout Hend. unfold poll_body, bind, stdout_readable, stdout_readline, ret.
  rewrite Hout, Hend. reflexivity.
Qed.

(** When the helper has closed its output, each pass through the loop
    finds nothing and sleeps; [k] passes before the ceiling, the loop is
    left exactly at the ceiling. *)
Lemma poll_closed start_time (k : nat) :
  forall w,
    stdout w = [] -> stdout_end w = Closed ->
    clock w = start_time + 30000 - 100 * Z.of_nat k ->
    exists w',
      poll start_time w = (Ret None, w')
      /\ clock w' = start_time + 30000.
Proof.
  induction k as [|k IH]; intros w Hout Hend Hclock; rewrite poll_step.
  - destruct (Z_lt_dec _ _) as [Hlt|_]; [lia|]. exists w. split; [reflexivity|lia].
  - destruct (Z_lt_dec _ _) as [_|Hge]; [|lia].
    rewrite (poll_body_closed w Hout Hend). cbn [time_sleep snd].
    apply IH; world_cbn; [assumption | assumption | lia].
Qed.

Lemma await_closed w :
  stdout w = [] -> stdout_end w = Closed ->
  exists w',
    await_response w = (Ret false, w')
    /\ clock w' = clock w + 30000
    /\ process w' = process w
    /\ sigterm_honoured w' = sigterm_honoured w.
Proof.
  intros Hout Hend.
  pose proof (orderly_await_response w) as (Hp & Hs & _).
  unfold await_response, bind, time_time in *.
  destruct (poll_closed (clock w) 300 w Hout Hend ltac:(lia)) as (w' & Hpoll & Hc).
  rewrite Hpoll in *. unfold print, ret in *. cbn [fst snd] in *.
  eexists. split; [reflexivity|]. world_cbn. world_cbn in Hp. world_cbn in Hs.
  auto.
Qed.

Lemma await_silent w :
  stdout w = [] -> stdout_end w = Silent ->
  await_response w = (Blocked, emit EReadline w).
Proof.
  intros Hout Hend. unfold await_response, bind, time_time. rewrite poll_step.
  destruct (Z_lt_dec _ _) as [_|Hge]; [|lia].
  rewrite (poll_body_silent w Hout Hend). reflexivity.
Qed.

(** A helper that answers the handshake and then closes its output: the
    loop runs to the ceiling and the client returns [False], thirty
    seconds after the request was sent. *)
Lemma closed_helper_times_out owner repo pull_number n w wait0 decoded0 :
  exchange_starts w [Line wait0 decoded0] ->
  stdout_end w = Closed ->
  Py.int pull_number = inr n ->
  let r := request_copilot_review owner repo pull_number w in
  fst r = Ret false
  /\ clock (snd r) = clock w + Z.of_N wait0 + 30000 + cleanup_time w
  /\ process (snd r) <> Running.
Proof.
  intros Hstarts Hend Hint.
  destruct (client_reaches_wait owner repo pull_number n w wait0 decoded0 []
              Hstarts Hint) as (w1 & Hout1 & Hend1 & Hclock1 & Hproc1 & Hsig1 & ->).
  destruct (await_closed w1 Hout1 ltac:(congruence))
    as (w2 & Hawait & Hclock2 & Hproc2 & Hsig2).
  unfold try_finally, try_except. rewrite Hawait.
  assert (Hstarted : process w2 <> NotStarted) by (rewrite Hproc2, Hproc1; discriminate).
  destruct (cleanup_fields w2 Hstarted) as (Hret & _ & Hclock3 & Hfinal).
  destruct (cleanup w2) as [[[]|?|] w3]; cbn [fst snd] in *; try discriminate.
  split; [reflexivity|]. split.
  - unfold cleanup_time in *. rewrite Hsig2, Hsig1 in Hclock3. lia.
  - destruct Hfinal as [(-> & _) | (-> & _)]; discriminate.
Qed.

(** A run that succeeds touches the helper in this order: it is started,
    the two requests are written, each followed by a flush and a read, and
    it is terminated and waited for. *)
Example successful_run_history :
  filter (fun e => touches_helper e)
    (history (snd (request_copilot_review "octo" "cat" (PInt 7)
                     (runner [result_line] Silent))))
  = [EPopen ["/work/github-mcp-server"; "stdio"] "t0ken";
     EWrite init_request; EFlush; EReadline;
     EWrite (review_request "octo" "cat" 7); EFlush; EReadline;
     ETerminate; EWait 5000].
Proof. vm_compute. reflexivity. Qed.

(** C5. A helper that answers the handshake and then stays alive without
    writing anything: the [readline] of line 156 does not return, the
    guard of the loop is never tested again, and the client neither returns
    [False] nor terminates the helper. *)
Theorem silent_helper_blocks_client owner repo pull_number n w wait0 decoded0 :
  exchange_starts w [Line wait0 decoded0] ->
  stdout_end w = Silent ->
  Py.int pull_number = inr n ->
  let r := request_copilot_review owner repo pull_number w in
  fst r = Blocked
  /\ process (snd r) = Running
  /\ clock (snd r) = clock w + Z.of_N wait0.
Proof.
  intros Hstarts Hend Hint.
  destruct (client_reaches_wait owner repo pull_number n w wait0 decoded0 []
              Hstarts Hint) as (w1 & Hout1 & Hend1 & Hclock1 & Hproc1 & Hsig1 & ->).
  unfold try_finally, try_except.
  rewrite (await_silent w1 Hout1) by congruence. cbn [fst snd]. world_cbn.
  auto.
Qed.

Lemma runner_starts lines ending : exchange_starts (runner lines ending) (init_line :: lines).
Proof.
  split; try reflexivity.
  - unfold helper_present. vm_compute. eauto.
  - left; reflexivity.
Qed.

Lemma silent_helper_blocks_client_witness :
  let r := request_copilot_review "octo" "cat" (PInt 7) (runner [] Silent) in
  fst r = Blocked /\ process (snd r) = Running /\ clock (snd r) = 20.
Proof.
  apply (silent_helper_blocks_client "octo" "cat" (PInt 7) 7 (runner [] Silent)
           20 (Some (PDict {[ "id" := PInt 1; "result" := PDict ∅ ]}))).
  - apply (runner_starts [] Silent).
  - reflexivity.
  - reflexivity.
Defined.

(** ** The line that follows the handshake *)

(** C1, as the code has it. When the line that follows the handshake is
    not JSON, or is a mapping with neither [error] nor [result], the client
    prints it and leaves the loop through the [break] of line 183: it
    reports a timeout and returns [False] as soon as the line has come,
    and the lines that follow are never read. *)
Theorem unexpected_line_ends_wait
    owner repo pull_number n w wait0 decoded0 wait_ms decoded rest :
  exchange_starts w (Line wait0 decoded0 :: Line wait_ms decoded :: rest) ->
  Py.int pull_number = inr n ->
  unexpected_line decoded ->
  let r := request_copilot_review owner repo pull_number w in
  fst r = Ret false
  /\ stdout (snd r) = rest
  /\ clock (snd r) = clock w + Z.of_N wait0 + Z.of_N wait_ms + cleanup_time w
  /\ In (EPrint (MsgReceived decoded)) (trace (snd r))
  /\ In (EPrint MsgTimeout) (trace (snd r)).
Proof.
  intros Hstarts Hint Hline.
  destruct (client_first_line owner repo pull_number n w wait0 decoded0 wait_ms
              decoded rest Hstarts Hint)
    as (wl & Hout & Hclock & Hproc & Hsig & _ & ->).
  assert (Hbreak : exists evs,
             handle_response decoded wl
             = (Ret Break, emits (evs ++ [EPrint (MsgReceived decoded)]) wl)).
  { destruct Hline as [-> | (m & -> & He & Hr)].
    - exists [EPrint (MsgRawResponse None); EPrint MsgJsonError].
      apply handle_unparsable.
    - exists [EPrint (MsgUnexpected (PDict m))]. apply handle_neither; assumption. }
  destruct Hbreak as (evs & ->).
  set (w2 := emit (EPrint MsgTimeout) _).
  assert (Hw2 : w2 = emits (EPrint MsgTimeout :: evs ++ [EPrint (MsgReceived decoded)]) wl)
    by reflexivity.
  assert (Hstarted : process w2 <> NotStarted)
    by (rewrite Hw2, process_emits, Hproc; discriminate).
  destruct (cleanup_fields w2 Hstarted) as (_ & Hout3 & Hclock3 & Hfinal).
  cbn [fst snd]. split; [reflexivity|].
  split; [rewrite Hout3, Hw2, stdout_emits; exact Hout|].
  split.
  { rewrite Hclock3. unfold cleanup_time.
    rewrite Hw2, clock_emits, sigterm_emits, Hsig. lia. }
  assert (Htrace : exists pre post,
             trace (snd (cleanup w2))
             = pre ++ EPrint MsgTimeout :: evs
                   ++ EPrint (MsgReceived decoded) :: post).
  { assert (Ht2 : trace w2 = EPrint MsgTimeout :: evs
                             ++ EPrint (MsgReceived decoded) :: trace wl).
    { rewrite Hw2, trace_emits. cbn [app]. rewrite <- app_assoc. reflexivity. }
    destruct Hfinal as [(_ & Ht & _) | (_ & Ht & _)]; rewrite Ht, Ht2.
    - exists [EWait 5000; ETerminate], (trace wl). reflexivity.
    - exists [EKill; EWait 5000; ETerminate], (trace wl). reflexivity. }
  destruct Htrace as (pre & post & ->). split.
  - apply in_or_app. right. right. apply in_or_app. right. left. reflexivity.
  - apply in_or_app. right. left. reflexivity.
Qed.

Lemma unexpected_line_ends_wait_witness :
  let r := request_copilot_review "octo" "cat" (PInt 7)
             (runner [garbage_line; result_line] Silent) in
  fst r = Ret false
  /\ stdout (snd r) = [result_line]
  /\ clock (snd r) = 0 + 20 + 500 + 0
  /\ In (EPrint (MsgReceived None)) (trace (snd r))
  /\ In (EPrint MsgTimeout) (trace (snd r)).
Proof.
  apply (unexpected_line_ends_wait "octo" "cat" (PInt 7) 7
           (runner [garbage_line; result_line] Silent)
           20 (Some (PDict {[ "id" := PInt 1; "result" := PDict ∅ ]}))
           500 None [result_line]).
  - apply (runner_starts [garbage_line; result_line] Silent).
  - reflexivity.
  - left. reflexivity.
Defined.

(** C1 does not hold as stated: after a line that is not JSON, and after
    a mapping with neither key, the client has returned [False] half a
    second into the wait, far from the ceiling of thirty seconds, and the
    [result] that the helper wrote next was never read. *)
Lemma polling_stops_at_unexpected_line :
  let r := request_copilot_review "octo" "cat" (PInt 7)
             (runner [garbage_line; result_line] Silent) in
  let r' := request_copilot_review "octo" "cat" (PInt 7)
              (runner [notification_line; result_line] Silent) in
  (fst r = Ret false /\ clock (snd r) = 520 /\ stdout (snd r) = [result_line])
  /\ (fst r' = Ret false /\ clock (snd r') = 520 /\ stdout (snd r') = [result_line]).
Proof. vm_compute. repeat split. Qed.




(** ** The entry point *)

Lemma prompt_ret {A} (a : A) : prompt (ret a).
Proof. intros w. discriminate. Qed.

Lemma prompt_raise {A} e : prompt (@raise A e).
Proof. intros w. discriminate. Qed.

Lemma prompt_lift {A} (r : exn + A) : prompt (lift r).
Proof. destruct r; intros w; discriminate. Qed.

Lemma prompt_bind {A B} (m : M A) (k : A -> M B) :
  prompt m -> (forall a, prompt (k a)) -> prompt (bind m k).
Proof.
  intros Hm Hk w. unfold bind. specialize (Hm w).
  destruct (m w) as [[a|e|] w1]; cbn [fst] in *;
    [apply Hk | discriminate | contradiction].
Qed.

Lemma prompt_print m : prompt (print m).
Proof. intros w. discriminate. Qed.

Lemma prompt_os_environ_get name : prompt (os_environ_get name).
Proof. intros w. discriminate. Qed.

Lemma prompt_os_path_exists path : prompt (os_path_exists path).
Proof. intros w. discriminate. Qed.

Lemma prompt_json_load_file path : prompt (json_load_file path).
Proof.
  intros w. unfold json_load_file.
  destruct (files w !! path) as [[|[v|]]|]; discriminate.
Qed.

Ltac prompt_step :=
  lazymatch goal with
  | |- prompt (bind _ _) => apply prompt_bind; [|intros ?]
  | |- prompt (if ?b then _ else _) => destruct b
  | |- prompt (match ?x with _ => _ end) => destruct x
  | |- prompt _ =>
      first [ apply prompt_ret | apply prompt_raise | apply prompt_lift
            | apply prompt_print | apply prompt_os_environ_get
            | apply prompt_os_path_exists | apply prompt_json_load_file ]
  end.

Lemma prompt_get_pull_request_info : prompt get_pull_request_info.
Proof.
  unfold get_pull_request_info, event_pr_number. repeat prompt_step.
Qed.

(** Lines 215-221 never wait for anything; what they raise is
    [SystemExit(1)] or an exception that nothing catches. *)
Lemma main_target_outcome args w :
  match fst (main_target args w) with
  | Ret _ => True
  | Raise e => e = SystemExit 1 \/ is_Exception e = true
  | Blocked => False
  end.
Proof.
  unfold main_target.
  destruct (_ && _ && _)%bool.
  - unfold bind, lift, ret, raise.
    destruct (Py.int _) as [e|n] eqn:Hint; cbn [fst]; [|exact I].
    right. exact (int_raises _ _ Hint).
  - unfold bind.
    pose proof (prompt_get_pull_request_info w) as Hprompt.
    pose proof (orderly_get_pull_request_info w) as (_ & _ & Hexn).
    destruct (get_pull_request_info w) as [[[[[owner repo] n]|]|e|] w1];
      cbn [fst] in *.
    + destruct (_ || _ || _)%bool; cbn [fst]; [left; reflexivity | exact I].
    + left. reflexivity.
    + right. apply Hexn. reflexivity.
    + contradiction.
Qed.

(** Once the command line has parsed, [main] is lines 215-233. *)
Lemma main_options args w :
  main (Options args) w = bind (main_target args) main_request w.
Proof. reflexivity. Qed.

(** * Further properties of the script *)

(** ** The repository identifier *)

Lemma split_length c s : length (Py.split c s) = S (Py.count c s).
Proof.
  induction s as [|a s IH]; [reflexivity|].
  cbn [Py.split Py.count]. destruct (Ascii.eqb a c).
  - cbn [length]. rewrite IH. reflexivity.
  - destruct (Py.split c s) as [|p ps]; [discriminate|].
    cbn [length] in *. lia.
Qed.

Lemma split_nonempty c s : Py.split c s <> [].
Proof.
  intros H. pose proof (split_length c s) as Hlen. rewrite H in Hlen.
  discriminate.
Qed.

Lemma split_one c s b :
  Py.split c s = [b] -> s = b /\ Py.count c s = 0%nat.
Proof.
  revert b. induction s as [|a s IH]; intros b H.
  - cbn in H. split; [congruence | reflexivity].
  - cbn [Py.split Py.count] in *. destruct (Ascii.eqb a c).
    + injection H as _ H. destruct (split_nonempty c s H).
    + destruct (Py.split c s) as [|p ps] eqn:Hs;
        [destruct (split_nonempty c s Hs)|].
      injection H as <- ->. destruct (IH p eq_refl) as [-> Hc].
      split; [reflexivity | exact Hc].
Qed.

Lemma split_two c s a b :
  Py.split c s = [a; b] ->
  s = (a ++ String c b)%string
  /\ Py.count c a = 0%nat /\ Py.count c b = 0%nat.
Proof.
  revert a. induction s as [|x s IH]; intros a H; [discriminate|].
  cbn [Py.split] in H. destruct (Ascii.eqb_spec x c) as [->|Hne].
  - injection H as <- H. destruct (split_one c s b H) as [-> Hc].
    split; [reflexivity | split; [reflexivity | exact Hc]].
  - destruct (Py.split c s) as [|p ps] eqn:Hs; [discriminate|].
    injection H as <- ->. destruct (IH p eq_refl) as (-> & Ha & Hb).
    split; [reflexivity | split; [|exact Hb]]. cbn [Py.count].
    destruct (Ascii.eqb_spec x c); [contradiction|]. exact Ha.
Qed.

(** X1. Without the repository identifier, missing or empty, the resolver
    prints its message and returns the empty result at once: the override
    and the event payload are not looked at. *)
Theorem resolver_without_repository w :
  Py.truthy (Py.of_env (environ w !! "GITHUB_REPOSITORY")) = false ->
  get_pull_request_info w
  = (Ret None,
     emits [EPrint MsgNoRepository; EGetenv "GITHUB_REPOSITORY"] w).
Proof.
  intros Hrepo. unfold get_pull_request_info, bind, os_environ_get.
  destruct (environ w !! "GITHUB_REPOSITORY") as [s|]; cbn in Hrepo |- *;
    [rewrite Hrepo|]; reflexivity.
Qed.

Lemma resolver_without_repository_witness :
  get_pull_request_info (actions_env "" (Some "12") pull_request_event)
  = (Ret None,
     emits [EPrint MsgNoRepository; EGetenv "GITHUB_REPOSITORY"]
       (actions_env "" (Some "12") pull_request_event)).
Proof.
  apply (resolver_without_repository
           (actions_env "" (Some "12") pull_request_event)).
  reflexivity.
Defined.

(** X2. A non-empty identifier gets past line 21 only with exactly one
    slash: with none, or with two or more, the unpacking raises
    [ValueError] before anything else is read. *)
Theorem repository_slash_count w s :
  environ w !! "GITHUB_REPOSITORY" = Some s ->
  s <> "" ->
  Py.count "/" s <> 1%nat ->
  get_pull_request_info w
  = (Raise ValueError, emit (EGetenv "GITHUB_REPOSITORY") w).
Proof.
  intros Hrepo Hne Hcount.
  unfold get_pull_request_info, bind, os_environ_get.
  rewrite Hrepo. cbn [default from_option id].
  rewrite (truthy_str_true _ Hne). cbn [negb].
  pose proof (split_length "/" s) as Hlen.
  destruct (Py.split "/" s) as [|a [|b [|c l]]]; cbn [length] in Hlen;
    try reflexivity. lia.
Qed.

Lemma repository_slash_count_witness :
  get_pull_request_info (actions_env "octo/cat/tail" (Some "12") pull_request_event)
  = (Raise ValueError,
     emit (EGetenv "GITHUB_REPOSITORY")
       (actions_env "octo/cat/tail" (Some "12") pull_request_event)).
Proof.
  apply (repository_slash_count _ "octo/cat/tail");
    [reflexivity | discriminate | vm_compute; discriminate].
Defined.

(** X3. When the resolver returns a target, its owner and name are the two
    halves of the identifier around its only slash. *)
Theorem resolved_target_splits_identifier w owner repo number :
  fst (get_pull_request_info w) = Ret (Some (owner, repo, number)) ->
  environ w !! "GITHUB_REPOSITORY" = Some (owner ++ "/" ++ repo)%string
  /\ Py.count "/" owner = 0%nat /\ Py.count "/" repo = 0%nat.
Proof.
  unfold get_pull_request_info, bind, os_environ_get.
  destruct (environ w !! "GITHUB_REPOSITORY") as [s|];
    cbn [default from_option id]; [|discriminate].
  destruct (negb (Py.truthy_str s)); [discriminate|].
  destruct (Py.split "/" s) as [|a [|b [|c l]]] eqn:Hsplit;
    cbn [Py.unpack2 lift raise ret fst]; try discriminate.
  match goal with
  | |- context [bind ?m ?k] => idtac
  | |- fst (let (o, w') := ?m in _) = _ -> _ => destruct m as [[v|e|] w1]
  end; cbn [fst]; try discriminate.
  destruct (negb (Py.truthy v)); [discriminate|].
  unfold lift. destruct (Py.int v) as [e|n]; cbn [raise ret fst];
    [discriminate|].
  intros [= <- <- <-]. destruct (split_two _ _ _ _ Hsplit) as (-> & Ha & Hb).
  auto.
Qed.

Lemma resolved_target_splits_identifier_witness :
  environ (actions_env "octo/cat" (Some "12") pull_request_event)
    !! "GITHUB_REPOSITORY" = Some ("octo" ++ "/" ++ "cat")%string
  /\ Py.count "/" "octo" = 0%nat /\ Py.count "/" "cat" = 0%nat.
Proof.
  apply (resolved_target_splits_identifier
           (actions_env "octo/cat" (Some "12") pull_request_event)
           "octo" "cat" 12).
  reflexivity.
Defined.

(** ** The number, when the override is unset *)

Section Payload.

Variable w : world.
Variables repository owner repo : string.
Hypothesis Hrepo : environ w !! "GITHUB_REPOSITORY" = Some repository.
Hypothesis Hsplit : Py.split "/" repository = [owner; repo].
Hypothesis Hunset : override_unset w.

Ltac unset_start :=
  unfold get_pull_request_info, bind, os_environ_get;
  rewrite Hrepo; cbn [default from_option id];
  rewrite (split_two_nonempty _ _ _ Hsplit), Hsplit;
  cbn [negb lift Py.unpack2 ret environ emit];
  unfold override_unset in Hunset; rewrite Hunset; cbn [negb environ emit].

Lemma without_event_path :
  Py.truthy (Py.of_env (environ w !! "GITHUB_EVENT_PATH")) = false ->
  get_pull_request_info w
  = (Ret None,
     emits [EPrint MsgNoPrNumber; EGetenv "GITHUB_EVENT_PATH";
            EGetenv "PR_NUMBER"; EGetenv "GITHUB_REPOSITORY"] w).
Proof.
  intros Hpath. unset_start. rewrite Hpath. unfold ret, print.
  rewrite Hunset. reflexivity.
Qed.

Lemma with_dangling_event_path path :
  environ w !! "GITHUB_EVENT_PATH" = Some path ->
  files w !! path = None ->
  path <> "" ->
  get_pull_request_info w
  = (Ret None,
     emits [EPrint MsgNoPrNumber; EExists path; EGetenv "GITHUB_EVENT_PATH";
            EGetenv "PR_NUMBER"; EGetenv "GITHUB_REPOSITORY"] w).
Proof.
  intros Hpath Hfile Hne. unset_start.
  rewrite Hpath, (truthy_of_env_true _ Hne).
  unfold os_path_exists. cbn [default from_option id files emit].
  rewrite Hfile, bool_decide_false by (intros [? ?]; discriminate).
  unfold ret, print. rewrite Hunset. reflexivity.
Qed.

(** What the resolver does with the node that the event path names. *)
Lemma with_event_node path node :
  environ w !! "GITHUB_EVENT_PATH" = Some path -> path <> "" ->
  files w !! path = Some node ->
  fst (get_pull_request_info w)
  = match node with
    | Dir => Raise OSError
    | File None => Raise JSONDecodeError
    | File (Some event_data) =>
        match fst (event_pr_number event_data
                     (Py.of_env (environ w !! "PR_NUMBER")) w) with
        | Ret pr_number =>
            if Py.truthy pr_number then
              match Py.int pr_number with
              | inr number => Ret (Some (owner, repo, number))
              | inl e => Raise e
              end
            else Ret None
        | Raise e => Raise e
        | Blocked => Blocked
        end
    end.
Proof.
  intros Hpath Hne Hfile. unset_start.
  rewrite Hpath, (truthy_of_env_true _ Hne).
  unfold os_path_exists, json_load_file.
  cbn [default from_option id files emit].
  rewrite Hfile, bool_decide_true by eauto. cbn [files emit]. rewrite Hfile.
  destruct node as [|[event_data|]]; [reflexivity| |reflexivity].
  set (w1 := emit (EOpen path) _).
  assert (Hpure : forall w2, event_pr_number event_data
                    (Py.of_env (environ w !! "PR_NUMBER")) w2
                  = (fst (event_pr_number event_data
                            (Py.of_env (environ w !! "PR_NUMBER")) w), w2)).
  { intros w2. unfold event_pr_number, bind, lift, ret, raise.
    destruct (Py.contains "pull_request" event_data) as [?|[|]];
      [reflexivity| |].
    - destruct (Py.getitem event_data "pull_request") as [?|v1];
        [reflexivity|]. destruct (Py.getitem v1 "number"); reflexivity.
    - destruct (Py.contains "issue" event_data) as [?|[|]]; try reflexivity.
      destruct (Py.getitem event_data "issue") as [?|v1]; [reflexivity|].
      destruct (Py.contains "pull_request" v1) as [?|[|]]; try reflexivity.
      destruct (Py.getitem v1 "number"); reflexivity. }
  rewrite (Hpure w1).
  destruct (fst (event_pr_number _ _ w)) as [v|e|]; cbn [fst]; try reflexivity.
  destruct (Py.truthy v); cbn [negb]; [|reflexivity].
  unfold lift, ret, raise. destruct (Py.int v); reflexivity.
Qed.

End Payload.

(** X4. With the override unset and no event payload to read (the path
    variable missing or empty, or naming nothing that exists), the
    resolver returns the empty result after printing its message, and has
    opened no file. *)
Theorem no_number_source_gives_empty w repository owner repo :
  environ w !! "GITHUB_REPOSITORY" = Some repository ->
  Py.split "/" repository = [owner; repo] ->
  override_unset w ->
  no_event_payload w ->
  fst (get_pull_request_info w) = Ret None
  /\ exists evs,
       snd (get_pull_request_info w) = emits (EPrint MsgNoPrNumber :: evs) w
       /\ Forall (fun e => forall path, e <> EOpen path) evs.
Proof.
  intros Hrepo Hsplit Hunset [Hpath | (path & Hpath & Hfile)].
  - rewrite (without_event_path w repository owner repo Hrepo Hsplit Hunset Hpath).
    split; [reflexivity|]. eexists. split; [reflexivity|].
    repeat constructor; discriminate.
  - destruct (decide (path = "")) as [-> | Hne].
    + rewrite (without_event_path w repository owner repo Hrepo Hsplit Hunset)
        by (rewrite Hpath; reflexivity).
      split; [reflexivity|]. eexists. split; [reflexivity|].
      repeat constructor; discriminate.
    + rewrite (with_dangling_event_path w repository owner repo Hrepo Hsplit
                 Hunset path Hpath Hfile Hne).
      split; [reflexivity|]. eexists. split; [reflexivity|].
      repeat constructor; discriminate.
Qed.

Lemma no_number_source_gives_empty_witness :
  fst (get_pull_request_info (payload_env "octo/cat" None)) = Ret None
  /\ exists evs,
       snd (get_pull_request_info (payload_env "octo/cat" None))
       = emits (EPrint MsgNoPrNumber :: evs) (payload_env "octo/cat" None)
       /\ Forall (fun e => forall path, e <> EOpen path) evs.
Proof.
  apply (no_number_source_gives_empty (payload_env "octo/cat" None)
           "octo/cat" "octo" "cat");
    [reflexivity | reflexivity | reflexivity |].
  right. exists "/event.json". split; reflexivity.
Defined.

(** X5. A payload that has the key but not the number under it is not
    skipped: a [pull_request] mapping without [number] raises [KeyError]
    (the [issue] of the same payload is not tried), a [pull_request] that
    is not a mapping raises [TypeError], and so does, with [KeyError], a
    pull-request comment whose [issue] has no [number]. *)
Theorem payload_without_number_raises w repository owner repo event :
  environ w !! "GITHUB_REPOSITORY" = Some repository ->
  Py.split "/" repository = [owner; repo] ->
  override_unset w ->
  event_payload w event ->
  (forall pr, event !! "pull_request" = Some (PDict pr) ->
              pr !! "number" = None ->
              fst (get_pull_request_info w) = Raise (KeyError "number"))
  /\ (forall v, event !! "pull_request" = Some v ->
                (forall pr, v <> PDict pr) ->
                fst (get_pull_request_info w) = Raise TypeError)
  /\ (forall issue, event !! "pull_request" = None ->
                    event !! "issue" = Some (PDict issue) ->
                    is_Some (issue !! "pull_request") ->
                    issue !! "number" = None ->
                    fst (get_pull_request_info w) = Raise (KeyError "number")).
Proof.
  intros Hrepo Hsplit Hunset (path & Hpath & Hne & Hfile).
  rewrite (with_event_node w repository owner repo Hrepo Hsplit Hunset path
             _ Hpath Hne Hfile).
  unfold event_pr_number, bind, lift, ret, raise. cbn [Py.contains Py.getitem].
  split; [|split].
  - intros pr Hpr Hnum. rewrite Hpr, bool_decide_true by eauto.
    cbn [Py.getitem fst]. rewrite Hnum. reflexivity.
  - intros v Hpr Hv. rewrite Hpr, bool_decide_true by eauto.
    destruct v; try reflexivity. destruct (Hv _ eq_refl).
  - intros issue Hpr Hissue Hkey Hnum.
    rewrite Hpr, bool_decide_false by (intros [? ?]; discriminate).
    rewrite Hissue, bool_decide_true by eauto. cbn [Py.contains Py.getitem fst].
    rewrite bool_decide_true by exact Hkey. rewrite Hnum. reflexivity.
Qed.

Lemma payload_without_number_raises_witness :
  fst (get_pull_request_info
         (actions_env "octo/cat" None
            {[ "pull_request" := PDict {[ "title" := PStr "t" ]};
               "issue" := PDict {[ "number" := PInt 7 ]} ]}))
  = Raise (KeyError "number").
Proof.
  apply (proj1 (payload_without_number_raises
                  (actions_env "octo/cat" None
                     {[ "pull_request" := PDict {[ "title" := PStr "t" ]};
                        "issue" := PDict {[ "number" := PInt 7 ]} ]})
                  "octo/cat" "octo" "cat" _ eq_refl eq_refl eq_refl
                  (event_payload_actions_env _ _ _))
           {[ "title" := PStr "t" ]});
    reflexivity.
Defined.

(** X6. A payload that cannot be read as a mapping stops the resolver
    with an exception, which nothing catches: a directory at the path
    ([OSError]), a file that is not JSON ([JSONDecodeError]), and JSON
    that is [null], a boolean or a number ([TypeError] at line 37). *)
Theorem unreadable_payload_raises w repository owner repo path :
  environ w !! "GITHUB_REPOSITORY" = Some repository ->
  Py.split "/" repository = [owner; repo] ->
  override_unset w ->
  environ w !! "GITHUB_EVENT_PATH" = Some path -> path <> "" ->
  (files w !! path = Some Dir ->
   fst (get_pull_request_info w) = Raise OSError)
  /\ (files w !! path = Some (File None) ->
      fst (get_pull_request_info w) = Raise JSONDecodeError)
  /\ (forall v e, files w !! path = Some (File (Some v)) ->
                  Py.contains "pull_request" v = inl e ->
                  fst (get_pull_request_info w) = Raise TypeError).
Proof.
  intros Hrepo Hsplit Hunset Hpath Hne. split; [|split].
  - intros Hfile.
    rewrite (with_event_node w repository owner repo Hrepo Hsplit Hunset path
               _ Hpath Hne Hfile). reflexivity.
  - intros Hfile.
    rewrite (with_event_node w repository owner repo Hrepo Hsplit Hunset path
               _ Hpath Hne Hfile). reflexivity.
  - intros v e Hfile Hin.
    rewrite (with_event_node w repository owner repo Hrepo Hsplit Hunset path
               _ Hpath Hne Hfile).
    unfold event_pr_number, bind, lift, raise.
    destruct v; cbn [Py.contains] in Hin |- *; try discriminate; reflexivity.
Qed.

Lemma unreadable_payload_raises_witness :
  fst (get_pull_request_info (payload_env "octo/cat" (Some (File None))))
  = Raise JSONDecodeError.
Proof.
  apply (proj1 (proj2 (unreadable_payload_raises
                  (payload_env "octo/cat" (Some (File None)))
                  "octo/cat" "octo" "cat" "/event.json"
                  eq_refl eq_refl eq_refl eq_refl ltac:(discriminate)))).
  reflexivity.
Defined.

(** X7. The number found under [pull_request] is tested for truth and then
    passed through [int]: a falsy one (0, null, an empty string) gives the
    empty result; otherwise the result carries [int] of it, so that a
    numeric string or a float is accepted and [true] counts as 1; and what
    [int] raises leaves the resolver. *)
Theorem payload_number_converted w repository owner repo event pr v :
  environ w !! "GITHUB_REPOSITORY" = Some repository ->
  Py.split "/" repository = [owner; repo] ->
  override_unset w ->
  event_payload w event ->
  event !! "pull_request" = Some (PDict pr) ->
  pr !! "number" = Some v ->
  fst (get_pull_request_info w)
  = if Py.truthy v then
      match Py.int v with
      | inr number => Ret (Some (owner, repo, number))
      | inl e => Raise e
      end
    else Ret None.
Proof.
  intros Hrepo Hsplit Hunset (path & Hpath & Hne & Hfile) Hpr Hnum.
  rewrite (with_event_node w repository owner repo Hrepo Hsplit Hunset path
             _ Hpath Hne Hfile).
  unfold event_pr_number, bind, lift, ret, raise. cbn [Py.contains Py.getitem].
  rewrite Hpr, bool_decide_true by eauto. cbn [Py.getitem fst]. rewrite Hnum.
  reflexivity.
Qed.

Lemma payload_number_converted_witness :
  fst (get_pull_request_info
         (actions_env "octo/cat" None
            {[ "pull_request" := PDict {[ "number" := PStr " 42 " ]} ]}))
  = Ret (Some ("octo", "cat", 42)).
Proof.
  rewrite (payload_number_converted
             (actions_env "octo/cat" None
                {[ "pull_request" := PDict {[ "number" := PStr " 42 " ]} ]})
             "octo/cat" "octo" "cat"
             {[ "pull_request" := PDict {[ "number" := PStr " 42 " ]} ]}
             {[ "number" := PStr " 42 " ]} (PStr " 42 "));
    [reflexivity | reflexivity | reflexivity | reflexivity
    | apply event_payload_actions_env | reflexivity | reflexivity].
Defined.

(** ** What the resolver and the locator do to the world *)

Section Emitting.

Variable P : event -> bool.

Lemma emitting_ret {A} (a : A) : emitting P (ret a).
Proof. intros w. exists []. split; [reflexivity | constructor]. Qed.

Lemma emitting_raise {A} e : emitting P (@raise A e).
Proof. intros w. exists []. split; [reflexivity | constructor]. Qed.

Lemma emitting_lift {A} (r : exn + A) : emitting P (lift r).
Proof. destruct r; [apply emitting_raise | apply emitting_ret]. Qed.

Lemma emitting_bind {A B} (m : M A) (k : A -> M B) :
  emitting P m -> (forall a, emitting P (k a)) -> emitting P (bind m k).
Proof.
  intros Hm Hk w. unfold bind. destruct (Hm w) as (evs & Hw & Hevs).
  destruct (m w) as [[a|e|] w1]; cbn [snd] in *; subst w1;
    [|exists evs; auto..].
  destruct (Hk a (emits evs w)) as (evs' & -> & Hevs').
  exists (evs' ++ evs). rewrite emits_app. split; [reflexivity|].
  apply Forall_app. auto.
Qed.

Lemma emitting_event {A} (f : world -> outcome A) (e : event) :
  P e = true -> emitting P (fun w => (f w, emit e w)).
Proof.
  intros He w. exists [e]. split; [reflexivity | repeat constructor; exact He].
Qed.

Lemma emitting_print m : P (EPrint m) = true -> emitting P (print m).
Proof. apply (emitting_event (fun _ => Ret tt)). Qed.

Lemma emitting_os_environ_get name :
  P (EGetenv name) = true -> emitting P (os_environ_get name).
Proof. apply (emitting_event (fun w => Ret (environ w !! name))). Qed.

Lemma emitting_os_getcwd : P EGetcwd = true -> emitting P os_getcwd.
Proof. apply (emitting_event (fun w => Ret (cwd w))). Qed.

Lemma emitting_os_path_exists path :
  P (EExists path) = true -> emitting P (os_path_exists path).
Proof.
  apply (emitting_event
           (fun w => Ret (bool_decide (is_Some (files w !! path))))).
Qed.

Lemma emitting_json_load_file path :
  P (EOpen path) = true -> emitting P (json_load_file path).
Proof.
  intros He w. exists [EOpen path]. unfold json_load_file.
  split; [|repeat constructor; exact He].
  destruct (files w !! path) as [[|[v|]]|]; reflexivity.
Qed.

End Emitting.

Ltac emitting_step :=
  lazymatch goal with
  | |- emitting _ (bind _ _) => apply emitting_bind; [|intros ?]
  | |- emitting _ (if ?b then _ else _) => destruct b
  | |- emitting _ (match ?x with _ => _ end) => destruct x
  | |- emitting _ _ =>
      first [ apply emitting_ret | apply emitting_raise | apply emitting_lift
            | apply emitting_print; reflexivity
            | apply emitting_os_environ_get; reflexivity
            | apply emitting_os_getcwd; reflexivity
            | apply emitting_os_path_exists; reflexivity
            | apply emitting_json_load_file; reflexivity ]
  end.

Lemma resolving_get_pull_request_info : emitting resolving get_pull_request_info.
Proof.
  unfold get_pull_request_info, event_pr_number. repeat emitting_step.
Qed.

Lemma resolving_main_target args : emitting resolving (main_target args).
Proof.
  unfold main_target, sys_exit.
  destruct (_ && _ && _)%bool; repeat emitting_step.
  apply resolving_get_pull_request_info.
Qed.

(** X8. The resolver only looks and prints: the world it leaves is the
    world it found with events added to the trace, each of them the
    reading of a variable other than the token, a test for a path, the
    opening of a file or a print. It starts nothing, writes nothing, and
    the clock has not moved; and it comes to an end, returning or raising
    an ordinary exception. *)
Theorem resolver_only_observes w :
  (exists evs,
      snd (get_pull_request_info w) = emits evs w
      /\ Forall (fun e => resolving e = true) evs)
  /\ fst (get_pull_request_info w) <> Blocked
  /\ forall e, fst (get_pull_request_info w) = Raise e -> is_Exception e = true.
Proof.
  split; [apply resolving_get_pull_request_info|].
  split; [apply prompt_get_pull_request_info|].
  apply (orderly_get_pull_request_info w).
Qed.

Lemma resolver_only_observes_witness :
  fst (get_pull_request_info (payload_env "octo" None)) = Raise ValueError
  /\ is_Exception ValueError = true.
Proof.
  split; [reflexivity|].
  apply (proj2 (proj2 (resolver_only_observes (payload_env "octo" None)))).
  reflexivity.
Defined.

(** X9. The locator answers with the path [cwd/github-mcp-server] when
    something exists there, be it a file of any content or a directory,
    and with [None] otherwise; the path it answers with is never empty,
    so that line 78 takes it as found. *)
Theorem setup_mcp_server_finds_path w :
  (is_Some (files w !! helper_path w) ->
   fst (setup_mcp_server w) = Ret (Some (helper_path w)))
  /\ (files w !! helper_path w = None ->
      fst (setup_mcp_server w) = Ret None)
  /\ Py.truthy (Py.of_env (Some (helper_path w))) = true
  /\ exists evs,
       snd (setup_mcp_server w) = emits evs w
       /\ Forall (fun e => reads_or_prints e = true) evs.
Proof.
  unfold setup_mcp_server, bind, print, os_getcwd, os_path_exists, ret.
  cbn [cwd files emit]. fold (helper_path w). split; [|split; [|split]].
  - intros Hsome. rewrite bool_decide_true by exact Hsome. reflexivity.
  - intros Hnone. rewrite Hnone, bool_decide_false by (intros [? ?]; discriminate).
    reflexivity.
  - apply helper_path_truthy.
  - destruct (bool_decide _).
    + eexists [_; _; _; _]. split; [reflexivity | repeat constructor].
    + eexists [_; _; _; _; _]. split; [reflexivity | repeat constructor].
Qed.

Lemma setup_mcp_server_finds_path_witness :
  fst (setup_mcp_server (runner [] Closed))
  = Ret (Some "/work/github-mcp-server")
  /\ fst (setup_mcp_server (payload_env "octo/cat" None)) = Ret None.
Proof.
  split.
  - apply (proj1 (setup_mcp_server_finds_path (runner [] Closed))).
    vm_compute. eauto.
  - apply (proj1 (proj2 (setup_mcp_server_finds_path
                           (payload_env "octo/cat" None)))).
    reflexivity.
Defined.

(** ** The target that the entry point settles on *)

(** X10. When one of the three options is missing or empty, the other two
    are not used at all: the target is resolved as if no option had been
    given. *)
Theorem partial_options_are_ignored args w :
  (Py.truthy (Py.of_env (arg_owner args))
   && Py.truthy (Py.of_env (arg_repo args))
   && Py.truthy (Py.of_env (arg_pr args)))%bool = false ->
  main_target args w = main_target no_args w
  /\ main (Options args) w = main (Options no_args) w.
Proof.
  intros Hpartial.
  assert (Htarget : main_target args w = main_target no_args w).
  { unfold main_target. rewrite Hpartial. reflexivity. }
  split; [exact Htarget|]. rewrite !main_options. unfold bind.
  rewrite Htarget. reflexivity.
Qed.

Lemma partial_options_are_ignored_witness :
  main_target {| arg_owner := Some "other"; arg_repo := Some "repo";
                 arg_pr := None |}
    (actions_env "octo/cat" None pull_request_event)
  = main_target no_args (actions_env "octo/cat" None pull_request_event)
  /\ main (Options {| arg_owner := Some "other"; arg_repo := Some "repo";
                      arg_pr := None |})
       (actions_env "octo/cat" None pull_request_event)
     = main (Options no_args) (actions_env "octo/cat" None pull_request_event).
Proof.
  apply (partial_options_are_ignored
           {| arg_owner := Some "other"; arg_repo := Some "repo";
              arg_pr := None |}).
  reflexivity.
Defined.

(** X11. The target that the entry point hands to the client has an owner
    and a name that are not empty; and when it comes from the resolver,
    its number is not 0. *)
Theorem target_is_well_formed args w owner repo number w1 :
  main_target args w = (Ret (owner, repo, number), w1) ->
  owner <> "" /\ repo <> ""
  /\ ((Py.truthy (Py.of_env (arg_owner args))
       && Py.truthy (Py.of_env (arg_repo args))
       && Py.truthy (Py.of_env (arg_pr args)))%bool = false ->
      number <> 0).
Proof.
  unfold main_target.
  destruct (_ && _ && _)%bool eqn:Hall.
  - apply andb_prop in Hall as [Hall _]. apply andb_prop in Hall as [Ho Hr].
    unfold bind, lift, ret, raise.
    destruct (Py.int _); [discriminate|]. intros [= <- <- <- <-].
    destruct (arg_owner args) as [[|]|], (arg_repo args) as [[|]|];
      try discriminate. repeat split; discriminate.
  - unfold bind.
    destruct (get_pull_request_info w) as [[[[[o r] n]|]|e|] w2];
      try discriminate.
    destruct (negb (Py.truthy_str o) || negb (Py.truthy_str r)
              || negb (Py.truthy (PInt n)))%bool eqn:Hbad; [discriminate|].
    intros [= <- <- <- <-].
    apply orb_false_elim in Hbad as [Hbad Hn].
    apply orb_false_elim in Hbad as [Ho Hr].
    destruct o, r; try discriminate.
    repeat split; try discriminate. intros _ ->. discriminate.
Qed.

Lemma target_is_well_formed_witness :
  "octo" <> "" /\ "cat" <> ""
  /\ ((Py.truthy (Py.of_env (arg_owner no_args))
       && Py.truthy (Py.of_env (arg_repo no_args))
       && Py.truthy (Py.of_env (arg_pr no_args)))%bool = false ->
      42 <> 0).
Proof.
  apply (target_is_well_formed no_args
           (actions_env "octo/cat" None pull_request_event) "octo" "cat" 42
           (emits [EOpen "/event.json"; EExists "/event.json";
                   EGetenv "GITHUB_EVENT_PATH"; EGetenv "PR_NUMBER";
                   EGetenv "GITHUB_REPOSITORY"]
              (actions_env "octo/cat" None pull_request_event))).
  vm_compute. reflexivity.
Defined.

(** X12. When the target is not resolved, whatever the reason, the script
    ends with status 1 having only looked and printed: the token is not
    asked for and the helper is not touched. *)
Theorem unresolved_target_exits_early args w e :
  fst (main_target args w) = Raise e ->
  exit_status (fst (main (Options args) w)) = Some 1
  /\ exists evs,
       snd (main (Options args) w) = emits evs w
       /\ Forall (fun ev => resolving ev = true) evs.
Proof.
  intros Hraise.
  pose proof (main_target_outcome args w) as Hout. rewrite Hraise in Hout.
  assert (Hmain : main (Options args) w
                  = (Raise e, snd (main_target args w))).
  { rewrite main_options. unfold bind.
    destruct (main_target args w) as [[t|e'|] w1];
      cbn [fst snd] in *; try discriminate. congruence. }
  rewrite Hmain. cbn [fst snd]. split.
  - destruct Hout as [-> | He]; [reflexivity|]. destruct e; try reflexivity.
    discriminate.
  - apply resolving_main_target.
Qed.

Lemma unresolved_target_exits_early_witness :
  exit_status (fst (main (Options no_args) bare_runner)) = Some 1
  /\ exists evs,
       snd (main (Options no_args) bare_runner) = emits evs bare_runner
       /\ Forall (fun ev => resolving ev = true) evs.
Proof.
  apply (unresolved_target_exits_early no_args bare_runner (SystemExit 1)).
  reflexivity.
Defined.

(** ** The client when the helper cannot be started or spoken to *)

Lemma token_given_to_helper token (env : gmap string string) :
  default "" (<["GITHUB_PERSONAL_ACCESS_TOKEN" := token]> env
              !! "GITHUB_PERSONAL_ACCESS_TOKEN") = token.
Proof. rewrite lookup_insert_eq. reflexivity. Qed.

(** The client up to and including [Popen]. *)
Lemma client_launch owner repo pull_number w :
  token_present w -> helper_present w ->
  request_copilot_review owner repo pull_number w
  = try_finally
      (try_except
         (fun w0 =>
            if popen_fails w then (Raise OSError, w0)
            else (exec handshake owner repo pull_number; await_response)
                   (set_process Running w0))
         on_exception)
      cleanup
      (emits (launch_events owner repo pull_number w) w).
Proof.
  intros Htoken Hhelper. rewrite client_prelude by assumption.
  unfold launch_events. rewrite emits_app.
  set (w0 := emits (prelude_events owner repo pull_number w) w).
  assert (Hp : popen_fails w0 = popen_fails w)
    by (unfold w0; apply (emits_fields _ w)).
  unfold try_finally, try_except, review_exchange, start_server, bind,
    os_environ_copy, print, subprocess_Popen.
  world_cbn. rewrite Hp, token_given_to_helper.
  assert (He : environ w0 = environ w) by (unfold w0; apply (emits_fields _ w)).
  rewrite <- He at 1.
  destruct (popen_fails w); reflexivity.
Qed.

Ltac run_exchange :=
  unfold try_finally, try_except, handshake, on_exception, bind, print,
    stdin_write, stdin_flush, stdout_readline, lift, ret, raise,
    launch_events, prelude_events, emits;
  cbn [app foldr is_Exception].

Ltac crank :=
  repeat (progress
    (cbn [environ cwd files popen_fails stdin_budget sigterm_honoured
          stdout_end stdout clock process trace emit advance set_process
          set_stdout set_stdin_budget after_readline is_Exception fst snd app])).

Ltac all_refl := repeat (split; [reflexivity|]); reflexivity.

Ltac run_cleanup :=
  unfold cleanup, try_except, bind, process_terminate, process_wait,
    process_kill; crank.

(** X13. When [Popen] raises, the client prints the exception and returns
    [False]; nothing has been written or read, and the [finally] clause
    finds no process to terminate. *)
Theorem popen_failure_is_reported owner repo pull_number w :
  token_present w -> helper_present w ->
  popen_fails w = true ->
  process w = NotStarted ->
  request_copilot_review owner repo pull_number w
  = (Ret false,
     emits (EPrint (MsgException OSError)
            :: launch_events owner repo pull_number w) w).
Proof.
  intros Htoken Hhelper Hpopen Hfresh.
  rewrite client_launch by assumption. rewrite Hpopen.
  unfold try_finally, try_except, on_exception, bind, print, ret.
  cbn [is_Exception]. rewrite <- emits_cons.
  rewrite cleanup_not_started by (rewrite process_emits; exact Hfresh).
  reflexivity.
Qed.

Lemma popen_failure_is_reported_witness :
  request_copilot_review "octo" "cat" (PInt 7)
    (World (environ (runner [] Silent)) "/work" (files (runner [] Silent))
       true None true Silent [] 0 NotStarted [])
  = (Ret false,
     emits (EPrint (MsgException OSError)
            :: launch_events "octo" "cat" (PInt 7)
                 (World (environ (runner [] Silent)) "/work"
                    (files (runner [] Silent)) true None true Silent [] 0
                    NotStarted []))
       (World (environ (runner [] Silent)) "/work" (files (runner [] Silent))
          true None true Silent [] 0 NotStarted [])).
Proof.
  apply popen_failure_is_reported.
  - reflexivity.
  - unfold helper_present. vm_compute. eauto.
  - reflexivity.
  - reflexivity.
Defined.

(** X14. When the pipe to the helper is broken at the first write, the
    client prints the exception and returns [False], and the helper is
    terminated all the same: nothing was written, nothing was read, and
    the run ends with the terminate and the wait (and the kill, when the
    helper does not exit). *)
Theorem broken_pipe_is_reported owner repo pull_number w :
  token_present w -> helper_present w ->
  popen_fails w = false ->
  stdin_budget w = Some 0%nat ->
  let r := request_copilot_review owner repo pull_number w in
  fst r = Ret false
  /\ stdout (snd r) = stdout w
  /\ process (snd r) = (if sigterm_honoured w then Exited else Killed)
  /\ trace (snd r)
     = (if sigterm_honoured w then [] else [EKill])
       ++ [EWait 5000; ETerminate; EPrint (MsgException BrokenPipeError);
           EPrint MsgSendingInit]
       ++ launch_events owner repo pull_number w ++ trace w.
Proof.
  intros Htoken Hhelper Hpopen Hbudget.
  rewrite client_launch by assumption. rewrite Hpopen.
  run_exchange. crank. rewrite Hbudget. crank. run_cleanup.
  destruct (sigterm_honoured w); crank; all_refl.
Qed.

Lemma broken_pipe_is_reported_witness :
  let w := World (environ (runner [] Silent)) "/work" (files (runner [] Silent))
             false (Some 0%nat) true Silent [init_line] 0 NotStarted [] in
  let r := request_copilot_review "octo" "cat" (PInt 7) w in
  fst r = Ret false
  /\ stdout (snd r) = stdout w
  /\ process (snd r) = (if sigterm_honoured w then Exited else Killed)
  /\ trace (snd r)
     = (if sigterm_honoured w then [] else [EKill])
       ++ [EWait 5000; ETerminate; EPrint (MsgException BrokenPipeError);
           EPrint MsgSendingInit]
       ++ launch_events "octo" "cat" (PInt 7) w ++ trace w.
Proof.
  apply broken_pipe_is_reported.
  - reflexivity.
  - unfold helper_present. vm_compute. eauto.
  - reflexivity.
  - reflexivity.
Defined.

(** X15. The read of the answer to [initialize] (line 125) has no time
    limit of any kind: with a helper that starts and writes nothing, the
    client does not return; it has sent the first request only, and the
    helper is left running. *)
Theorem unanswered_initialize_blocks owner repo pull_number w :
  token_present w -> helper_present w ->
  popen_fails w = false ->
  stdin_budget w <> Some 0%nat ->
  stdout w = [] -> stdout_end w = Silent ->
  let r := request_copilot_review owner repo pull_number w in
  fst r = Blocked
  /\ process (snd r) = Running
  /\ clock (snd r) = clock w
  /\ trace (snd r)
     = [EReadline; EFlush; EWrite init_request; EPrint MsgSendingInit]
       ++ launch_events owner repo pull_number w ++ trace w.
Proof.
  intros Htoken Hhelper Hpopen Hbudget Hout Hend.
  rewrite client_launch by assumption. rewrite Hpopen.
  run_exchange. crank.
  destruct (stdin_budget w) as [[|k]|]; [contradiction|..];
    crank; rewrite Hout, Hend; crank; all_refl.
Qed.

Lemma unanswered_initialize_blocks_witness :
  let w := World (environ (runner [] Silent)) "/work" (files (runner [] Silent))
             false None true Silent [] 0 NotStarted [] in
  let r := request_copilot_review "octo" "cat" (PInt 7) w in
  fst r = Blocked
  /\ process (snd r) = Running
  /\ clock (snd r) = clock w
  /\ trace (snd r)
     = [EReadline; EFlush; EWrite init_request; EPrint MsgSendingInit]
       ++ launch_events "octo" "cat" (PInt 7) w ++ trace w.
Proof.
  apply unanswered_initialize_blocks.
  - reflexivity.
  - unfold helper_present. vm_compute. eauto.
  - reflexivity.
  - discriminate.
  - reflexivity.
  - reflexivity.
Defined.

(** X16. A pull-request number that [int] rejects is found out only after
    the helper has been started and has answered [initialize]: the client
    then prints the exception and returns [False]; the second request is
    never written, and the helper is terminated. *)
Theorem bad_pull_number_found_late
    owner repo pull_number e w wait0 decoded0 lines :
  exchange_starts w (Line wait0 decoded0 :: lines) ->
  Py.int pull_number = inl e ->
  let r := request_copilot_review owner repo pull_number w in
  fst r = Ret false
  /\ stdout (snd r) = lines
  /\ process (snd r) = (if sigterm_honoured w then Exited else Killed)
  /\ trace (snd r)
     = (if sigterm_honoured w then [] else [EKill])
       ++ [EWait 5000; ETerminate; EPrint (MsgException e);
           EPrint (MsgInitDone (Data decoded0)); EReadline; EFlush;
           EWrite init_request; EPrint MsgSendingInit]
       ++ launch_events owner repo pull_number w ++ trace w.
Proof.
  intros [Htoken Hhelper Hpopen Hstdin Hfresh Hout] Hint.
  rewrite client_launch by assumption. rewrite Hpopen.
  pose proof (int_raises _ _ Hint) as Hexn.
  run_exchange. crank. rewrite Hint.
  destruct Hstdin as [Hb | [k Hb]]; rewrite Hb; crank; rewrite Hout; crank;
    rewrite Hexn; run_cleanup;
    destruct (sigterm_honoured w); crank; all_refl.
Qed.

Lemma bad_pull_number_found_late_witness :
  let r := request_copilot_review "octo" "cat" (PStr "seven")
             (runner [result_line] Silent) in
  fst r = Ret false
  /\ stdout (snd r) = [result_line]
  /\ process (snd r)
     = (if sigterm_honoured (runner [result_line] Silent) then Exited else Killed)
  /\ trace (snd r)
     = (if sigterm_honoured (runner [result_line] Silent) then [] else [EKill])
       ++ [EWait 5000; ETerminate; EPrint (MsgException ValueError);
           EPrint (MsgInitDone (Data init_answer));
           EReadline; EFlush; EWrite init_request; EPrint MsgSendingInit]
       ++ launch_events "octo" "cat" (PStr "seven") (runner [result_line] Silent)
       ++ trace (runner [result_line] Silent).
Proof.
  apply (bad_pull_number_found_late "octo" "cat" (PStr "seven") ValueError
           (runner [result_line] Silent) 20 init_answer [result_line]).
  - apply (runner_starts [result_line] Silent).
  - reflexivity.
Defined.

(** ** The client when the helper has started *)





(** X19. A line that is JSON but no container ([null], a boolean, a
    number) makes line 163 raise [TypeError]; and an [error] that is not a
    mapping makes line 166 raise [AttributeError], after the error has
    been announced. Both go to the [except Exception] clause: the client
    prints the exception and returns [False]. *)
Theorem malformed_reply_is_caught
    owner repo pull_number n w wait0 decoded0 wait_ms decoded rest :
  exchange_starts w (Line wait0 decoded0 :: Line wait_ms decoded :: rest) ->
  Py.int pull_number = inr n ->
  let r := request_copilot_review owner repo pull_number w in
  (forall v e, decoded = Some v -> Py.contains "error" v = inl e ->
               fst r = Ret false
               /\ In (EPrint (MsgException TypeError)) (trace (snd r)))
  /\ (forall m error, decoded = Some (PDict m) -> m !! "error" = Some error ->
                      (forall d, error <> PDict d) ->
                      fst r = Ret false
                      /\ In (EPrint MsgRpcError) (trace (snd r))
                      /\ In (EPrint (MsgException AttributeError)) (trace (snd r))).
Proof.
  intros Hstarts Hint.
  destruct (client_first_line owner repo pull_number n w wait0 decoded0 wait_ms
              decoded rest Hstarts Hint)
    as (wl & _ & _ & Hproc & _ & _ & ->).
  assert (Hcaught : forall e evs,
             handle_response decoded wl = (Raise e, emits evs wl) ->
             let r := (Ret false,
                       snd (cleanup (emit (EPrint (MsgException e))
                                       (emits evs wl)))) in
             fst r = Ret false
             /\ forall ev, In ev (EPrint (MsgException e) :: evs) ->
                           In ev (trace (snd r))).
  { intros e evs _. cbn [fst snd]. split; [reflexivity|].
    rewrite <- emits_cons.
    set (w2 := emits _ wl).
    assert (Hstarted : process w2 <> NotStarted)
      by (unfold w2; rewrite process_emits, Hproc; discriminate).
    assert (Ht2 : trace w2 = (EPrint (MsgException e) :: evs) ++ trace wl)
      by (unfold w2; apply trace_emits).
    destruct (cleanup_fields w2 Hstarted) as (_ & _ & _ & Hfinal).
    intros ev Hin.
    destruct Hfinal as [(_ & -> & _) | (_ & -> & _)]; rewrite Ht2;
      [|apply in_cons]; apply in_cons, in_cons, in_or_app; left; exact Hin. }
  split.
  - intros v e -> Hin.
    assert (Hh : handle_response (Some v) wl
                 = (Raise TypeError, emits [EPrint (MsgReceived (Some v))] wl)).
    { unfold handle_response, bind, try_except, print, json_loads, lift, ret,
        raise. destruct v; cbn [Py.contains] in Hin |- *; try discriminate;
        reflexivity. }
    rewrite Hh. destruct (Hcaught _ _ Hh) as [Hf Ht].
    split; [exact Hf|]. apply Ht. left. reflexivity.
  - intros m error -> Herr Hnd.
    assert (Hh : handle_response (Some (PDict m)) wl
                 = (Raise AttributeError,
                    emits [EPrint MsgRpcError;
                           EPrint (MsgReceived (Some (PDict m)))] wl)).
    { unfold handle_response, bind, try_except, print, json_loads, lift, ret,
        raise. cbn [Py.contains Py.getitem].
      rewrite Herr, bool_decide_true by eauto.
      destruct error; try reflexivity. destruct (Hnd _ eq_refl). }
    rewrite Hh. destruct (Hcaught _ _ Hh) as [Hf Ht].
    split; [exact Hf|]. split; apply Ht; [right; left | left]; reflexivity.
Qed.

Lemma malformed_reply_is_caught_witness :
  let r := request_copilot_review "octo" "cat" (PInt 7)
             (runner [Line 500 (Some PNone)] Silent) in
  fst r = Ret false /\ In (EPrint (MsgException TypeError)) (trace (snd r)).
Proof.
  apply (proj1 (malformed_reply_is_caught "octo" "cat" (PInt 7) 7
                  (runner [Line 500 (Some PNone)] Silent) 20 init_answer 500
                  (Some PNone) []
                  (runner_starts [Line 500 (Some PNone)] Silent) eq_refl)
           PNone TypeError eq_refl eq_refl).
Defined.



(** ** The wait, pass by pass *)

Lemma idle_fields k w :
  stdout (idle k w) = stdout w /\ stdout_end (idle k w) = stdout_end w
  /\ process (idle k w) = process w
  /\ sigterm_honoured (idle k w) = sigterm_honoured w
  /\ clock (idle k w) = clock w + 100 * Z.of_nat k
  /\ trace (idle k w)
     = concat (replicate k [ESleep 100; EReadline]) ++ trace w.
Proof.
  induction k as [|k (Ho & He & Hp & Hs & Hc & Ht)].
  - repeat (split; [reflexivity|]). split; [unfold idle; simpl Nat.iter; lia | reflexivity].
  - unfold idle in *. rewrite Nat.iter_succ.
    set (w' := Nat.iter k idle_pass w) in *.
    unfold idle_pass, emit, advance.
    cbn [stdout stdout_end process sigterm_honoured clock trace].
    repeat (split; [assumption|]). split; [rewrite Hc; lia|].
    rewrite Ht. reflexivity.
Qed.

Lemma poll_idle start_time (k : nat) :
  forall w,
    stdout w = [] -> stdout_end w = Closed ->
    clock w = start_time + 30000 - 100 * Z.of_nat k ->
    poll start_time w = (Ret None, idle k w).
Proof.
  induction k as [|k IH]; intros w Hout Hend Hclock; rewrite poll_step.
  - destruct (Z_lt_dec _ _) as [Hlt|_]; [lia | reflexivity].
  - destruct (Z_lt_dec _ _) as [_|Hge]; [|lia].
    rewrite (poll_body_closed w Hout Hend). cbn [time_sleep snd].
    fold (idle_pass w). unfold idle. rewrite Nat.iter_succ_r.
    apply IH; unfold idle_pass; world_cbn; [assumption | assumption | lia].
Qed.

Lemma await_idle w :
  stdout w = [] -> stdout_end w = Closed ->
  await_response w = (Ret false, emit (EPrint MsgTimeout) (idle 300 w)).
Proof.
  intros Hout Hend. unfold await_response, bind, time_time.
  rewrite (poll_idle (clock w) 300 w Hout Hend) by lia. reflexivity.
Qed.

(** X21. When the helper closes its output after the handshake, the loop
    makes three hundred passes, each a read that finds nothing and a sleep
    of a tenth of a second, and no more (the clock being moved by the
    sleeps and the waits only); the client then reports the timeout and
    returns [False], thirty seconds after the request, and the helper is
    terminated. *)
Theorem closed_output_polls_to_ceiling
    owner repo pull_number n w wait0 decoded0 :
  exchange_starts w [Line wait0 decoded0] ->
  stdout_end w = Closed ->
  Py.int pull_number = inr n ->
  let r := request_copilot_review owner repo pull_number w in
  fst r = Ret false
  /\ clock (snd r) = clock w + Z.of_N wait0 + 30000 + cleanup_time w
  /\ process (snd r) = (if sigterm_honoured w then Exited else Killed)
  /\ exists before,
       trace (snd r)
       = (if sigterm_honoured w then [] else [EKill])
         ++ [EWait 5000; ETerminate; EPrint MsgTimeout]
         ++ concat (replicate 300 [ESleep 100; EReadline])
         ++ EPrint MsgWaiting :: before.
Proof.
  intros Hstarts Hend Hint.
  assert (Hwait : exists before w1,
             stdout w1 = [] /\ stdout_end w1 = Closed
             /\ clock w1 = clock w + Z.of_N wait0
             /\ process w1 = Running
             /\ sigterm_honoured w1 = sigterm_honoured w
             /\ trace w1 = EPrint MsgWaiting :: before
             /\ request_copilot_review owner repo pull_number w
                = try_finally (try_except await_response on_exception)
                    cleanup w1).
  { destruct Hstarts as [Htoken Hhelper Hpopen Hstdin Hfresh Hout].
    rewrite client_launch by assumption. rewrite Hpopen.
    unfold try_finally at 1, try_except at 1, handshake, bind, print,
      stdin_write, stdin_flush, stdout_readline, lift, ret, raise,
      launch_events, prelude_events, emits.
    cbn [app foldr]. crank. rewrite Hint.
    destruct Hstdin as [Hb | [k Hb]]; rewrite Hb; crank; rewrite Hout; crank;
      rewrite ?Hb; crank;
      (eexists; eexists; split; [|split; [|split; [|split; [|split; [|split;
         [|unfold try_finally, try_except; reflexivity]]]]]]);
      crank; first [reflexivity | assumption]. }
  destruct Hwait as (before & w1 & Hout1 & Hend1 & Hclock1 & Hproc1 & Hsig1
                     & Htrace1 & ->).
  unfold try_finally, try_except. rewrite (await_idle w1 Hout1 Hend1).
  destruct (idle_fields 300 w1) as (_ & _ & Hp & Hs & Hc & Ht).
  change (100 * Z.of_nat 300) with 30000 in Hc.
  revert Hp Hs Hc Ht.
  generalize (concat (replicate 300 [ESleep 100; EReadline])) as passes.
  generalize (idle 300 w1) as w2. intros w2 passes Hp Hs Hc Ht.
  run_cleanup. rewrite Hp, Hproc1, Hs, Hsig1. unfold cleanup_time.
  destruct (sigterm_honoured w); crank; rewrite Hc, Hclock1, Ht, Htrace1;
    (split; [reflexivity|]); (split; [lia|]); (split; [reflexivity|]);
    exists before; reflexivity.
Qed.

Lemma closed_output_polls_to_ceiling_witness :
  let r := request_copilot_review "octo" "cat" (PInt 7) (runner [] Closed) in
  fst r = Ret false
  /\ clock (snd r) = clock (runner [] Closed) + Z.of_N 20 + 30000
                     + cleanup_time (runner [] Closed)
  /\ process (snd r)
     = (if sigterm_honoured (runner [] Closed) then Exited else Killed)
  /\ exists before,
       trace (snd r)
       = (if sigterm_honoured (runner [] Closed) then [] else [EKill])
         ++ [EWait 5000; ETerminate; EPrint MsgTimeout]
         ++ concat (replicate 300 [ESleep 100; EReadline])
         ++ EPrint MsgWaiting :: before.
Proof.
  apply (closed_output_polls_to_ceiling "octo" "cat" (PInt 7) 7
           (runner [] Closed) 20 init_answer).
  - apply (runner_starts [] Closed).
  - reflexivity.
  - reflexivity.
Defined.

(** X22. The answer to [initialize] is not looked at, not even for being
    there: when the helper has closed its output before answering, the
    read of line 125 returns the empty string, the review request is
    written all the same, and only the wait, thirty seconds later, ends in
    [False]. *)
Theorem missing_initialize_answer_goes_unnoticed owner repo pull_number n w :
  token_present w -> helper_present w ->
  popen_fails w = false ->
  stdin_budget w = None \/ (exists k, stdin_budget w = Some (S (S k))) ->
  stdout w = [] -> stdout_end w = Closed ->
  Py.int pull_number = inr n ->
  let r := request_copilot_review owner repo pull_number w in
  fst r = Ret false
  /\ clock (snd r) = clock w + 30000 + cleanup_time w
  /\ exists before,
       trace (snd r)
       = (if sigterm_honoured w then [] else [EKill])
         ++ [EWait 5000; ETerminate; EPrint MsgTimeout]
         ++ concat (replicate 300 [ESleep 100; EReadline])
         ++ [EPrint MsgWaiting; EFlush; EWrite (review_request owner repo n);
             EPrint (MsgPullRequest pull_number);
             EPrint (MsgRepository owner repo); EPrint MsgSendingReview;
             EPrint (MsgInitDone NoData); EReadline; EFlush;
             EWrite init_request]
         ++ before.
Proof.
  intros Htoken Hhelper Hpopen Hstdin Hout Hend Hint.
  assert (Hwait : exists before w1,
             stdout w1 = [] /\ stdout_end w1 = Closed
             /\ clock w1 = clock w
             /\ process w1 = Running
             /\ sigterm_honoured w1 = sigterm_honoured w
             /\ trace w1
                = [EPrint MsgWaiting; EFlush;
                   EWrite (review_request owner repo n);
                   EPrint (MsgPullRequest pull_number);
                   EPrint (MsgRepository owner repo); EPrint MsgSendingReview;
                   EPrint (MsgInitDone NoData); EReadline; EFlush;
                   EWrite init_request] ++ before
             /\ request_copilot_review owner repo pull_number w
                = try_finally (try_except await_response on_exception)
                    cleanup w1).
  { rewrite client_launch by assumption. rewrite Hpopen.
    unfold try_finally at 1, try_except at 1, handshake, bind, print,
      stdin_write, stdin_flush, stdout_readline, lift, ret, raise,
      launch_events, prelude_events, emits.
    cbn [app foldr]. crank. rewrite Hint.
    destruct Hstdin as [Hb | [k Hb]]; rewrite Hb; crank; rewrite Hout, Hend;
      crank; rewrite ?Hb; crank;
      (eexists; eexists; split; [|split; [|split; [|split; [|split; [|split;
         [|unfold try_finally, try_except; reflexivity]]]]]]);
      crank; first [reflexivity | assumption]. }
  destruct Hwait as (before & w1 & Hout1 & Hend1 & Hclock1 & Hproc1 & Hsig1
                     & Htrace1 & ->).
  unfold try_finally, try_except. rewrite (await_idle w1 Hout1 Hend1).
  destruct (idle_fields 300 w1) as (_ & _ & Hp & Hs & Hc & Ht).
  change (100 * Z.of_nat 300) with 30000 in Hc.
  revert Hp Hs Hc Ht.
  generalize (concat (replicate 300 [ESleep 100; EReadline])) as passes.
  generalize (idle 300 w1) as w2. intros w2 passes Hp Hs Hc Ht.
  run_cleanup. rewrite Hp, Hproc1, Hs, Hsig1. unfold cleanup_time.
  destruct (sigterm_honoured w); crank; rewrite Hc, Hclock1, Ht, Htrace1;
    (split; [reflexivity|]); (split; [lia|]);
    exists before; reflexivity.
Qed.

Lemma missing_initialize_answer_goes_unnoticed_witness :
  let w := World (environ (runner [] Closed)) "/work" (files (runner [] Closed))
             false None true Closed [] 0 NotStarted [] in
  let r := request_copilot_review "octo" "cat" (PInt 7) w in
  fst r = Ret false
  /\ clock (snd r) = clock w + 30000 + cleanup_time w
  /\ exists before,
       trace (snd r)
       = (if sigterm_honoured w then [] else [EKill])
         ++ [EWait 5000; ETerminate; EPrint MsgTimeout]
         ++ concat (replicate 300 [ESleep 100; EReadline])
         ++ [EPrint MsgWaiting; EFlush; EWrite (review_request "octo" "cat" 7);
             EPrint (MsgPullRequest (PInt 7));
             EPrint (MsgRepository "octo" "cat"); EPrint MsgSendingReview;
             EPrint (MsgInitDone NoData); EReadline; EFlush;
             EWrite init_request]
         ++ before.
Proof.
  apply (missing_initialize_answer_goes_unnoticed "octo" "cat" (PInt 7) 7).
  - reflexivity.
  - unfold helper_present. vm_compute. eauto.
  - reflexivity.
  - left. reflexivity.
  - reflexivity.
  - reflexivity.
  - reflexivity.
Defined.

(** * The entry point, from the command line on *)

(** ** Where the target comes from *)

Lemma emitting_first P {A B} (f : world -> A) (e : event) (k : A -> M B) :
  (forall a, emitting P (k a)) ->
  forall w, exists evs,
    snd (bind (fun w => (Ret (f w), emit e w)) k w) = emits (evs ++ [e]) w
    /\ Forall (fun ev => P ev = true) evs.
Proof.
  intros Hk w. unfold bind.
  destruct (Hk (f w) (emit e w)) as (evs & -> & Hevs).
  exists evs. rewrite emits_app. split; [reflexivity | exact Hevs].
Qed.

(** The resolver begins by reading the repository identifier. *)
Lemma resolver_reads_identifier w :
  exists evs,
    snd (get_pull_request_info w)
    = emits (evs ++ [EGetenv "GITHUB_REPOSITORY"]) w
    /\ Forall (fun ev => resolving ev = true) evs.
Proof.
  unfold get_pull_request_info, event_pr_number.
  apply (emitting_first resolving
           (fun w => environ w !! "GITHUB_REPOSITORY")
           (EGetenv "GITHUB_REPOSITORY")).
  intros repository. repeat emitting_step.
Qed.

Lemma partial_options_invoke_resolver args w :
  options_given args = false ->
  exists evs,
    snd (main_target args w) = emits (evs ++ [EGetenv "GITHUB_REPOSITORY"]) w.
Proof.
  intros Hpartial. unfold options_given in Hpartial.
  unfold main_target. rewrite Hpartial. unfold bind.
  destruct (resolver_reads_identifier w) as (evs & Hw & _).
  destruct (get_pull_request_info w) as [[[[[owner repo] n]|]|e|] w1];
    cbn [snd] in Hw; subst w1; try (exists evs; reflexivity).
  - destruct (_ || _ || _)%bool; [|exists evs; reflexivity].
    exists (EPrint MsgNoTarget :: evs). reflexivity.
  - exists (EPrint MsgNoTarget :: evs). reflexivity.
Qed.

(** C9, as the code has it. With the three options given and none of them
    empty, the target is the three options, the number converted by
    [int], and the world is left as it was: the resolver has not been
    called, no variable of the environment and no file has been read.
    With an option missing or empty the options are not used, and the
    resolver is called: the repository identifier is read, and the
    target, when there is one, is the one the resolver returns. *)
Theorem cli_target_bypasses_resolver args w :
  (forall owner repo pr,
      arg_owner args = Some owner -> owner <> "" ->
      arg_repo args = Some repo -> repo <> "" ->
      arg_pr args = Some pr -> pr <> "" ->
      main_target args w
      = (match Py.int (PStr pr) with
         | inr n => Ret (owner, repo, n)
         | inl e => Raise e
         end, w))
  /\ (options_given args = false ->
      main_target args w = main_target no_args w
      /\ (exists evs,
             snd (main_target args w)
             = emits (evs ++ [EGetenv "GITHUB_REPOSITORY"]) w)
      /\ forall owner repo n,
           fst (main_target args w) = Ret (owner, repo, n) ->
           fst (get_pull_request_info w) = Ret (Some (owner, repo, n))).
Proof.
  split.
  - intros owner repo pr Ho Hone Hr Hrne Hp Hpne.
    unfold main_target. rewrite Ho, Hr, Hp.
    rewrite !truthy_of_env_true by assumption. cbn [andb].
    unfold bind, lift, ret, raise. cbn [Py.of_env].
    destruct (Py.int (PStr pr)); reflexivity.
  - intros Hpartial.
    split; [|split; [exact (partial_options_invoke_resolver args w Hpartial)|]];
      unfold options_given in Hpartial; unfold main_target;
      rewrite Hpartial; [reflexivity|].
    intros owner repo n. unfold bind.
    destruct (get_pull_request_info w) as [[[[[o r] m]|]|e|] w1];
      cbn [fst]; try discriminate.
    destruct (_ || _ || _)%bool; [discriminate|].
    intros [= -> -> ->]. reflexivity.
Qed.

Lemma cli_target_bypasses_resolver_witness :
  main_target cli_args (actions_env "octo/cat" (Some "12") pull_request_event)
  = (Ret ("octo", "cat", 5),
     actions_env "octo/cat" (Some "12") pull_request_event)
  /\ exists evs,
       snd (main_target empty_owner_args
              (actions_env "octo/cat" (Some "12") pull_request_event))
       = emits (evs ++ [EGetenv "GITHUB_REPOSITORY"])
           (actions_env "octo/cat" (Some "12") pull_request_event).
Proof.
  split.
  - apply (proj1 (cli_target_bypasses_resolver cli_args
                    (actions_env "octo/cat" (Some "12") pull_request_event))
             "octo" "cat" "5");
      first [reflexivity | discriminate].
  - apply (proj2 (cli_target_bypasses_resolver empty_owner_args
                    (actions_env "octo/cat" (Some "12") pull_request_event))).
    reflexivity.
Defined.

(** C9 does not hold as stated. The three options are supplied, the first
    of them as the empty string: the resolver is called all the same,
    and the target is the one of the environment, not the one of the
    command line. *)
Lemma empty_option_invokes_resolver :
  main_target empty_owner_args
    (actions_env "octo/cat" (Some "12") pull_request_event)
  = (Ret ("octo", "cat", 12),
     after_env_reads (actions_env "octo/cat" (Some "12") pull_request_event)).
Proof. reflexivity. Qed.

(** ** The exit status *)



